(** * Sensor handlers of the IoT server: a shallow embedding

    The development follows [internal/handlers/sensor.handler.go].  Each
    handler method of [SensorHandler] becomes a computation in a small
    state-and-error monad that records, in order, every call the handler
    makes to one of its collaborators (validator, database pool,
    repositories, response writer).  The collaborators themselves are kept
    abstract: their behaviour for one request is a record of functions. *)

From Stdlib Require Import ZArith List String Ascii Bool Lia.
From Stdlib Require Import Sorting.Sorted Sorting.Permutation DecimalString.
From Stdlib Require DecimalZ.
Import ListNotations.

Local Open Scope Z_scope.
Local Open Scope string_scope.

(** ** Go values used by the handlers *)

(** A Go [error] value.  [NewError code message] is what
    [fiber.NewError(code, message)] builds; [Foreign] stands for any other
    error a collaborator may hand back. *)
Inductive error : Type :=
| NewError (code : Z) (message : string)
| Foreign (text : string).

Definition error_eqb (a b : error) : bool :=
  match a, b with
  | NewError c m, NewError c' m' => Z.eqb c c' && String.eqb m m'
  | Foreign t, Foreign t' => String.eqb t t'
  | _, _ => false
  end.

(** A Go result pair [(value, err)]: either the value with a nil error, or
    a non-nil error. *)
Inductive Result (A : Type) : Type :=
| Ok (a : A)
| Err (e : error).
Arguments Ok {A} a.
Arguments Err {A} e.

Definition err_of {A : Type} (r : Result A) : option error :=
  match r with
  | Ok _ => None
  | Err e => Some e
  end.

(** ** [strings.ToLower]

    The model works on bytes and maps the ASCII capitals to their small
    letters; bytes outside [A-Z] are left as they are.  No code point
    outside ASCII has one of the letters of ["sensor"] as its lower case,
    so the comparison made in [Create] is not affected by this. *)
Definition lower_byte (c : ascii) : ascii :=
  let n := nat_of_ascii c in
  if (Nat.leb 65 n && Nat.leb n 90)%bool then ascii_of_nat (n + 32) else c.

Fixpoint ToLower (s : string) : string :=
  match s with
  | EmptyString => EmptyString
  | String c r => String (lower_byte c) (ToLower r)
  end.

(** [fmt.Sprintf("%d", n)]. *)
Definition Sprintf_d (n : Z) : string := NilEmpty.string_of_int (Z.to_int n).

(** ** Entities

    Modelled from the spec: the records of [internal/entities], which is not
    part of the sources at hand.  The fields the handlers read ([IdUser],
    [IsAdmin], [Type], [IdNode], [IdHardware], [Time]) carry the names the
    handlers use; the remaining fields follow the data model of the
    specification (id, owning node reference, hardware reference,
    metadata).  [Type_] is the field [Type] of [entities.Hardware]. *)
Module User.
Record t : Type := mk { IdUser : Z; IsAdmin : bool }.
End User.

Module Node.
Record t : Type := mk { IdNode : Z; IdUser : Z }.
End Node.

Module Hardware.
Record t : Type := mk { IdHardware : Z; Type_ : string }.
End Hardware.

Module Sensor.
Record t : Type := mk { IdSensor : Z; Name : string; IdHardware : Z; IdNode : Z }.
End Sensor.

Module SensorCreate.
Record t : Type := mk { Name : string; IdHardware : Z; IdNode : Z }.
End SensorCreate.

Module SensorUpdate.
Record t : Type := mk { Name : string; IdHardware : Z; IdNode : Z }.
End SensorUpdate.

(** A reading.  [Time] is an instant, counted in nanoseconds; [Value] is the
    payload, which the handlers never inspect. *)
Module Channel.
Record t : Type := mk { Time : Z; Value : Z }.
End Channel.

(** [t.Before(u)] of Go's [time.Time]. *)
Definition Before (t u : Z) : bool := Z.ltb t u.

(** ** Responses *)

(** The values bound in a [fiber.Map] given to [c.Render]. *)
Inductive Binding : Type :=
| BString (s : string)
| BBool (b : bool)
| BSensor (s : Sensor.t)
| BSensors (l : list Sensor.t)
| BChannels (l : list Channel.t).

Inductive Body : Type :=
| Text (s : string)
| JSONSensors (l : list Sensor.t)
| JSONSensorWithChannel (sensor : Sensor.t) (channel : list Channel.t)
| HTML (name : string) (bind : list (string * Binding)) (layout : string).

Record Response : Type := mkResponse { status : Z; body : Body }.

Definition StatusOK : Z := 200.
Definition StatusCreated : Z := 201.

(** ** Calls to collaborators *)

Inductive Call : Type :=
| ParseBody
| ParseIdFromUrlParameter
| GetAuthentication
| Begin
| Commit
| Rollback
| Node_GetById (id : Z)
| Hardware_GetById (id : Z)
| Sensor_Create (payload : SensorCreate.t)
| Sensor_GetAll (user : User.t)
| Sensor_GetById (id : Z)
| Sensor_GetSensorChannel (id : Z)
| Sensor_GetIdUserWhoOwnSensorById (id : Z)
| Sensor_Update (sensor : Sensor.t) (payload : SensorUpdate.t)
| Sensor_Delete (id : Z)
| Accepts
| Render (name : string) (bind : list (string * Binding)) (layout : string)
| JSON (status : Z) (v : Body)
| SendString (status : Z) (s : string).

(** One entry of the call log: the call and the error it returned, if any. *)
Definition Event : Type := (Call * option error)%type.

(** Calls on one of the three repositories. *)
Definition is_repository (c : Call) : bool :=
  match c with
  | Node_GetById _ | Hardware_GetById _
  | Sensor_Create _ | Sensor_GetAll _ | Sensor_GetById _
  | Sensor_GetSensorChannel _ | Sensor_GetIdUserWhoOwnSensorById _
  | Sensor_Update _ _ | Sensor_Delete _ => true
  | _ => false
  end.

(** Repository calls that write. *)
Definition is_mutation (c : Call) : bool :=
  match c with
  | Sensor_Create _ | Sensor_Update _ _ | Sensor_Delete _ => true
  | _ => false
  end.

(** Calls whose errors the handlers hand on: validator, transaction begin
    and repositories. *)
Definition is_collaborator (c : Call) : bool :=
  match c with
  | ParseBody | ParseIdFromUrlParameter | GetAuthentication | Begin => true
  | _ => is_repository c
  end.

(** ** [sort.Slice]

    The standard library sorts a slice in place, given a [less] on its
    elements; the result is a rearrangement of the slice in which no
    element is [less] than the one before it, and the order of elements
    that compare equal is not fixed.  The handlers are written against this
    contract; [insertion_sort] is the procedure Go runs on short slices
    (each element is swapped towards the front while it is [less] than its
    left neighbour). *)
Definition SliceSort : Type := forall A : Type, (A -> A -> bool) -> list A -> list A.

Definition strict_weak_order {A : Type} (less : A -> A -> bool) : Prop :=
  (forall a, less a a = false) /\
  (forall a b c, less a b = true -> less b c = true -> less a c = true) /\
  (forall a b c, less a b = false -> less b c = false -> less a c = false).

(** Neighbours are in order: the later one is not [less] than the earlier. *)
Definition ascending {A : Type} (less : A -> A -> bool) (l : list A) : Prop :=
  Sorted (fun a b => less b a = false) l.

Definition sort_contract (sort : SliceSort) : Prop :=
  forall (A : Type) (less : A -> A -> bool) (l : list A),
    Permutation l (sort A less l) /\
    (strict_weak_order less -> ascending less (sort A less l)).

(** [sink less x back]: [back] is the sorted front of the slice, last
    element first; [x] moves towards the front past every element it is
    [less] than. *)
Fixpoint sink {A : Type} (less : A -> A -> bool) (x : A) (back : list A) : list A :=
  match back with
  | [] => [x]
  | y :: r => if less x y then y :: sink less x r else x :: y :: r
  end.

Definition insertion_sort : SliceSort :=
  fun A less l => rev (fold_left (fun back x => sink less x back) l []).

(** ** The request and the environment *)

(** What the validator and the web framework answer for one request [c]. *)
Record Ctx : Type := mkCtx {
  ParseBody_SensorCreate : Result SensorCreate.t;
  ParseBody_SensorUpdate : Result SensorUpdate.t;
  ParseId : Result Z;
  Authentication : Result User.t;
  (** the offer chosen by [c.Accepts("application/json", "text/html")] *)
  Accepted : string;
  (** the outcome of rendering a template *)
  RenderError : string -> option error;
  (** the outcome of encoding a JSON body *)
  JSONError : option error
}.

(** The request [c] with another answer to [GetAuthentication]. *)
Definition with_Authentication (c : Ctx) (a : Result User.t) : Ctx :=
  mkCtx (ParseBody_SensorCreate c) (ParseBody_SensorUpdate c) (ParseId c) a
        (Accepted c) (RenderError c) (JSONError c).

Section Handlers.

(** The contents of the database. *)
Context {Store : Type}.

(** The database pool and the repositories.  Reads are functions of the
    contents seen by the transaction; writes also give the new contents. *)
Record Env : Type := mkEnv {
  db_Begin : option error;
  nodeRepository_GetById : Store -> Z -> Result Node.t;
  hardwareRepository_GetById : Store -> Z -> Result Hardware.t;
  repository_Create : Store -> SensorCreate.t -> option error * Store;
  repository_GetAll : Store -> User.t -> Result (list Sensor.t);
  repository_GetById : Store -> Z -> Result Sensor.t;
  repository_GetSensorChannel : Store -> Z -> Result (list Channel.t);
  repository_GetIdUserWhoOwnSensorById : Store -> Z -> Result Z;
  repository_Update : Store -> Sensor.t -> SensorUpdate.t -> option error * Store;
  repository_Delete : Store -> Z -> option error * Store
}.

(** ** The handler monad *)

Record HState : Type := mkHState {
  calls : list Event;        (* the call log, oldest first *)
  persisted : Store;         (* committed contents of the database *)
  tx : Store;                (* contents as seen by the open transaction *)
  resp : option Response     (* the response written so far *)
}.

Definition M (A : Type) : Type := HState -> Result A * HState.

Definition ret {A : Type} (a : A) : M A := fun st => (Ok a, st).

Definition fail {A : Type} (e : error) : M A := fun st => (Err e, st).

Definition bind {A B : Type} (m : M A) (k : A -> M B) : M B :=
  fun st =>
    match m st with
    | (Ok a, st') => k a st'
    | (Err e, st') => (Err e, st')
    end.

Definition log (c : Call) (e : option error) (st : HState) : HState :=
  mkHState (calls st ++ [(c, e)]) (persisted st) (tx st) (resp st).

Definition call {A : Type} (c : Call) (r : Result A) : M A :=
  fun st => (r, log c (err_of r) st).

(** A repository read inside the transaction. *)
Definition query {A : Type} (c : Call) (f : Store -> Result A) : M A :=
  fun st => let r := f (tx st) in (r, log c (err_of r) st).

(** A repository write inside the transaction. *)
Definition exec (c : Call) (f : Store -> option error * Store) : M unit :=
  fun st =>
    let (e, s) := f (tx st) in
    (match e with None => Ok tt | Some e' => Err e' end,
     mkHState (calls st ++ [(c, e)]) (persisted st) s (resp st)).

Declare Scope handler_scope.
Delimit Scope handler_scope with handler.
Notation "x <- m ;; k" := (bind m (fun x => k))
  (at level 100, m at next level, right associativity) : handler_scope.
Notation "m ;; k" := (bind m (fun _ => k))
  (at level 100, right associativity) : handler_scope.
Local Open Scope handler_scope.

(** *** The transaction

    Modelled from the spec: [helper.CommitOrRollback], which is not part of
    the sources at hand.  Following the specification ("commit-or-rollback
    deferred", "the transaction rollback on any error"), it rolls the
    transaction back when the handler's error is not nil and commits it
    otherwise. *)
Definition CommitOrRollback (r : Result unit) (st : HState) : HState :=
  match r with
  | Err _ => mkHState (calls st ++ [(Rollback, None)]) (persisted st) (persisted st) (resp st)
  | Ok _ => mkHState (calls st ++ [(Commit, None)]) (tx st) (tx st) (resp st)
  end.

(** [tx, err := h.db.Begin(ctx); if err != nil { return err };
    defer helper.CommitOrRollback(ctx, tx, &err)] followed by the rest of
    the handler. *)
Definition InTx (env : Env) (rest : M unit) : M unit :=
  fun st =>
    match db_Begin env with
    | Some e => (Err e, log Begin (Some e) st)
    | None =>
        let st1 := mkHState (calls st ++ [(Begin, None)]) (persisted st) (persisted st) (resp st) in
        let (r, st2) := rest st1 in
        (r, CommitOrRollback r st2)
    end.

(** *** Writing the response *)

Definition write (c : Call) (r : Response) : M unit :=
  fun st => (Ok tt, mkHState (calls st ++ [(c, None)]) (persisted st) (tx st) (Some r)).

(** [c.Status(status).SendString(s)]; [SendString] never fails. *)
Definition Status_SendString (status : Z) (s : string) : M unit :=
  write (SendString status s) (mkResponse status (Text s)).

(** [c.Status(status).JSON(v)]. *)
Definition Status_JSON (c : Ctx) (status : Z) (v : Body) : M unit :=
  match JSONError c with
  | Some e => fun st => (Err e, log (JSON status v) (Some e) st)
  | None => write (JSON status v) (mkResponse status v)
  end.

(** [c.Render(name, bind, layout)]; the status stays at the framework's
    default. *)
Definition c_Render (c : Ctx) (name : string) (bind : list (string * Binding))
  (layout : string) : M unit :=
  match RenderError c name with
  | Some e => fun st => (Err e, log (Render name bind layout) (Some e) st)
  | None => write (Render name bind layout) (mkResponse StatusOK (HTML name bind layout))
  end.

(** [c.Accepts("application/json", "text/html")]. *)
Definition c_Accepts (c : Ctx) : M string :=
  fun st => (Ok (Accepted c), log Accepts None st).

(** ** The handlers *)

Variable sort_Slice : SliceSort.

Definition CreateForm (c : Ctx) : M unit :=
  c_Render c "sensor_form" [("title", BString "Create Sensor")] "layouts/main".

Definition Create (c : Ctx) (env : Env) : M unit :=
  bodyPayload <- call ParseBody (ParseBody_SensorCreate c);;
  InTx env (
    node <- query (Node_GetById (SensorCreate.IdNode bodyPayload))
              (fun s => nodeRepository_GetById env s (SensorCreate.IdNode bodyPayload));;
    hardware <- query (Hardware_GetById (SensorCreate.IdHardware bodyPayload))
              (fun s => hardwareRepository_GetById env s (SensorCreate.IdHardware bodyPayload));;
    let hardwareType := ToLower (Hardware.Type_ hardware) in
    if negb (String.eqb hardwareType "sensor") then
      fail (NewError 400 "Hardware type not match, type should be sensor")
    else
      currentUser <- call GetAuthentication (Authentication c);;
      if negb (Z.eqb (User.IdUser currentUser) (Node.IdUser node)) then
        fail (NewError 403 "You can’t use other user’s node")
      else
        exec (Sensor_Create bodyPayload) (fun s => repository_Create env s bodyPayload);;
        Status_SendString StatusCreated "Success add new sensor").

Definition GetAll (c : Ctx) (env : Env) : M unit :=
  InTx env (
    currentUser <- call GetAuthentication (Authentication c);;
    sensors <- query (Sensor_GetAll currentUser)
                 (fun s => repository_GetAll env s currentUser);;
    accept <- c_Accepts c;;
    if String.eqb accept "text/html" then
      c_Render c "sensor"
        [("title", BString "Sensor"); ("sensors", BSensors sensors)] "layouts/main"
    else
      Status_JSON c StatusOK (JSONSensors sensors)).

(** The owner-or-admin test of [GetById], [Update] and [Delete]:
    [sensorOwnerId != currentUser.IdUser && !currentUser.IsAdmin]. *)
Definition forbidden (sensorOwnerId : Z) (currentUser : User.t) : bool :=
  negb (Z.eqb sensorOwnerId (User.IdUser currentUser)) && negb (User.IsAdmin currentUser).

Definition GetById (c : Ctx) (env : Env) : M unit :=
  id <- call ParseIdFromUrlParameter (ParseId c);;
  InTx env (
    sensor <- query (Sensor_GetById id) (fun s => repository_GetById env s id);;
    channels <- query (Sensor_GetSensorChannel id)
                  (fun s => repository_GetSensorChannel env s id);;
    sensorOwnerId <- query (Sensor_GetIdUserWhoOwnSensorById id)
                       (fun s => repository_GetIdUserWhoOwnSensorById env s id);;
    currentUser <- call GetAuthentication (Authentication c);;
    if forbidden sensorOwnerId currentUser then
      fail (NewError 403 "You can’t see another user’s sensor")
    else
      accept <- c_Accepts c;;
      if String.eqb accept "text/html" then
        let channels :=
          sort_Slice Channel.t
            (fun ci cj => Before (Channel.Time ci) (Channel.Time cj)) channels in
        c_Render c "sensor_detail"
          [("title", BString "Sensor Detail"); ("sensor", BSensor sensor);
           ("channel", BChannels channels)] "layouts/main"
      else
        Status_JSON c StatusOK (JSONSensorWithChannel sensor channels)).

Definition UpdateForm (c : Ctx) (env : Env) : M unit :=
  id <- call ParseIdFromUrlParameter (ParseId c);;
  InTx env (
    sensor <- query (Sensor_GetById id) (fun s => repository_GetById env s id);;
    c_Render c "sensor_form"
      [("title", BString "Edit Sensor"); ("sensor", BSensor sensor); ("edit", BBool true)]
      "layouts/main").

Definition Update (c : Ctx) (env : Env) : M unit :=
  id <- call ParseIdFromUrlParameter (ParseId c);;
  bodyPayload <- call ParseBody (ParseBody_SensorUpdate c);;
  InTx env (
    sensor <- query (Sensor_GetById id) (fun s => repository_GetById env s id);;
    sensorOwnerId <- query (Sensor_GetIdUserWhoOwnSensorById id)
                       (fun s => repository_GetIdUserWhoOwnSensorById env s id);;
    currentUser <- call GetAuthentication (Authentication c);;
    if forbidden sensorOwnerId currentUser then
      fail (NewError 403 "You can’t edit another user’s sensor")
    else
      exec (Sensor_Update sensor bodyPayload)
        (fun s => repository_Update env s sensor bodyPayload);;
      Status_SendString StatusOK "Success edit sensor").

Definition Delete (c : Ctx) (env : Env) : M unit :=
  id <- call ParseIdFromUrlParameter (ParseId c);;
  InTx env (
    sensorOwnerId <- query (Sensor_GetIdUserWhoOwnSensorById id)
                       (fun s => repository_GetIdUserWhoOwnSensorById env s id);;
    currentUser <- call GetAuthentication (Authentication c);;
    if forbidden sensorOwnerId currentUser then
      fail (NewError 403 "You can't delete another user's sensor")
    else
      exec (Sensor_Delete id) (fun s => repository_Delete env s id);;
      Status_SendString StatusOK ("Success delete sensor, id: " ++ Sprintf_d id)).

(** ** Running a handler *)

(** What the framework sees once the handler, with its deferred call, has
    returned. *)
Record Outcome : Type := mkOutcome {
  returned : option error;     (* the handler's [err] result; [None] is nil *)
  response : option Response;  (* the response the handler wrote *)
  trace : list Event;          (* the calls it made, in order *)
  database : Store             (* the committed contents afterwards *)
}.

Definition run (h : M unit) (db : Store) : Outcome :=
  let (r, st) := h (mkHState [] db db None) in
  mkOutcome (err_of r) (resp st) (calls st) (persisted st).

Inductive Operation : Type :=
| OpCreate | OpGetAll | OpGetById | OpUpdateForm | OpUpdate | OpDelete.

Definition handler (op : Operation) : Ctx -> Env -> M unit :=
  match op with
  | OpCreate => Create
  | OpGetAll => GetAll
  | OpGetById => GetById
  | OpUpdateForm => UpdateForm
  | OpUpdate => Update
  | OpDelete => Delete
  end.

Definition called (c : Call) (o : Outcome) : Prop := exists e, In (c, e) (trace o).

End Handlers.

Arguments Env : clear implicits.
Arguments HState : clear implicits.
Arguments Outcome : clear implicits.

(** ** An in-memory repository

    A small database and repositories over it, used to run the handlers on
    concrete requests. *)
Module Mem.

Record Store : Type := mkStore {
  nodes : list Node.t;
  hardwares : list Hardware.t;
  sensors : list Sensor.t;
  channels : list (Z * Channel.t)
}.

Definition NotFound : error := NewError 404 "not found".

Definition node_by_id (s : Store) (id : Z) : Result Node.t :=
  match find (fun n => Z.eqb (Node.IdNode n) id) (nodes s) with
  | Some n => Ok n
  | None => Err NotFound
  end.

Definition hardware_by_id (s : Store) (id : Z) : Result Hardware.t :=
  match find (fun h => Z.eqb (Hardware.IdHardware h) id) (hardwares s) with
  | Some h => Ok h
  | None => Err NotFound
  end.

Definition sensor_by_id (s : Store) (id : Z) : Result Sensor.t :=
  match find (fun x => Z.eqb (Sensor.IdSensor x) id) (sensors s) with
  | Some x => Ok x
  | None => Err NotFound
  end.

Definition owner_of (s : Store) (id : Z) : Result Z :=
  match sensor_by_id s id with
  | Ok x =>
      match node_by_id s (Sensor.IdNode x) with
      | Ok n => Ok (Node.IdUser n)
      | Err e => Err e
      end
  | Err e => Err e
  end.

Definition owned_by (s : Store) (u : User.t) (x : Sensor.t) : bool :=
  match node_by_id s (Sensor.IdNode x) with
  | Ok n => Z.eqb (Node.IdUser n) (User.IdUser u)
  | Err _ => false
  end.

Definition channels_of (s : Store) (id : Z) : Result (list Channel.t) :=
  Ok (map snd (filter (fun p => Z.eqb (fst p) id) (channels s))).

Definition next_id (s : Store) : Z :=
  1 + fold_right (fun x m => Z.max (Sensor.IdSensor x) m) 0 (sensors s).

Definition create (s : Store) (p : SensorCreate.t) : option error * Store :=
  (None,
   mkStore (nodes s) (hardwares s)
     (sensors s ++
      [Sensor.mk (next_id s) (SensorCreate.Name p) (SensorCreate.IdHardware p)
         (SensorCreate.IdNode p)])
     (channels s)).

Definition update (s : Store) (x : Sensor.t) (p : SensorUpdate.t) : option error * Store :=
  (None,
   mkStore (nodes s) (hardwares s)
     (map (fun y =>
             if Z.eqb (Sensor.IdSensor y) (Sensor.IdSensor x) then
               Sensor.mk (Sensor.IdSensor y) (SensorUpdate.Name p)
                 (SensorUpdate.IdHardware p) (SensorUpdate.IdNode p)
             else y) (sensors s))
     (channels s)).

Definition delete (s : Store) (id : Z) : option error * Store :=
  (None,
   mkStore (nodes s) (hardwares s)
     (filter (fun y => negb (Z.eqb (Sensor.IdSensor y) id)) (sensors s))
     (filter (fun p => negb (Z.eqb (fst p) id)) (channels s))).

Definition env : Env Store :=
  mkEnv None node_by_id hardware_by_id create
    (fun s u => Ok (filter (owned_by s u) (sensors s)))
    sensor_by_id channels_of owner_of update delete.

(** Two users, each with one node; a sensor board and an actuator board;
    one sensor of user 1 with three readings, stored out of order. *)
Definition db : Store :=
  mkStore
    [Node.mk 10 1; Node.mk 20 2]
    [Hardware.mk 100 "Sensor"; Hardware.mk 200 "actuator"]
    [Sensor.mk 7 "thermometer" 100 10]
    [(7, Channel.mk 30 5); (7, Channel.mk 10 6); (7, Channel.mk 20 4)].

Definition alice : User.t := User.mk 1 false.
Definition bob : User.t := User.mk 2 false.
Definition root : User.t := User.mk 3 true.

(** A request by [user] for sensor [id], with both bodies filled in. *)
Definition request (user : User.t) (id : Z) (accept : string) : Ctx :=
  mkCtx (Ok (SensorCreate.mk "barometer" 100 10))
        (Ok (SensorUpdate.mk "hygrometer" 100 10))
        (Ok id) (Ok user) accept (fun _ => None) None.

(** A request of [alice] whose body does not validate. *)
Definition malformed : Ctx :=
  mkCtx (Err (NewError 400 "invalid body")) (Err (NewError 400 "invalid body"))
        (Ok 7) (Ok alice) "application/json" (fun _ => None) None.

End Mem.


(** ** Notions used in the statements *)

(** Both tests of [Create] come out in favour of the request: the board is
    a sensor board and the node belongs to the authenticated user. *)
Definition Create_checks_pass (c : Ctx) (node : Node.t) (hardware : Hardware.t) : Prop :=
  ToLower (Hardware.Type_ hardware) = "sensor" /\
  exists user, Authentication c = Ok user /\ User.IdUser user = Node.IdUser node.

(** Some repository write occurs in the trace. *)
Definition mutates {Store : Type} (o : Outcome Store) : Prop :=
  exists k e, In (k, e) (trace o) /\ is_mutation k = true.

(** [op], run on request [c], gets as far as the owner-or-admin test: the
    id parses, the transaction begins, every lookup made before the test
    succeeds and the client is authenticated.  [owner] is the answer of
    [GetIdUserWhoOwnSensorById] and [user] the authenticated user. *)
Definition reaches_check {Store : Type} (op : Operation) (c : Ctx) (env : Env Store)
  (db : Store) (id owner : Z) (user : User.t) : Prop :=
  ParseId c = Ok id /\
  db_Begin env = None /\
  repository_GetIdUserWhoOwnSensorById env db id = Ok owner /\
  Authentication c = Ok user /\
  match op with
  | OpGetById =>
      exists sensor channels,
        repository_GetById env db id = Ok sensor /\
        repository_GetSensorChannel env db id = Ok channels
  | OpUpdate =>
      exists payload sensor,
        ParseBody_SensorUpdate c = Ok payload /\
        repository_GetById env db id = Ok sensor
  | OpDelete => True
  | OpCreate | OpGetAll | OpUpdateForm => False
  end.

(** The call that follows the owner-or-admin test in [op]: content
    negotiation in [GetById], the repository write in [Update] and
    [Delete]. *)
Definition guarded_call {Store : Type} (op : Operation) (c : Ctx) (env : Env Store)
  (db : Store) (id : Z) (k : Call) : Prop :=
  match op with
  | OpGetById => k = Accepts
  | OpUpdate =>
      exists sensor payload,
        repository_GetById env db id = Ok sensor /\
        ParseBody_SensorUpdate c = Ok payload /\
        k = Sensor_Update sensor payload
  | OpDelete => k = Sensor_Delete id
  | OpCreate | OpGetAll | OpUpdateForm => False
  end.

(** Calls that write the response. *)
Definition is_response (k : Call) : bool :=
  match k with
  | Render _ _ _ | JSON _ _ | SendString _ _ => true
  | _ => false
  end.

(** The handler got as far as writing a response, successfully or not. *)
Definition responds {Store : Type} (o : Outcome Store) : Prop :=
  exists k e, In (k, e) (trace o) /\ is_response k = true.

(** The bindings [GetById] hands to the template ["sensor_detail"]. *)
Definition detail_bindings (sensor : Sensor.t) (channels : list Channel.t)
  : list (string * Binding) :=
  [("title", BString "Sensor Detail"); ("sensor", BSensor sensor);
   ("channel", BChannels channels)].

(** The bindings [GetAll] hands to the template ["sensor"]. *)
Definition list_bindings (sensors : list Sensor.t) : list (string * Binding) :=
  [("title", BString "Sensor"); ("sensors", BSensors sensors)].

(** Readings in ascending order of time: no reading is earlier than the one
    shown before it. *)
Definition by_time (l : list Channel.t) : Prop :=
  Sorted (fun a b => Channel.Time a <= Channel.Time b) l.

(** Every error a collaborator returned in [tr] is the result [r] of the
    handler, and no repository is called after it. *)
Fixpoint handed_on (tr : list Event) (r : option error) : Prop :=
  match tr with
  | [] => True
  | (k, Some e) :: post =>
      (is_collaborator k = true ->
       r = Some e /\ Forall (fun ev => is_repository (fst ev) = false) post) /\
      handed_on post r
  | (_, None) :: post => handed_on post r
  end.

(** The handlers that write to the database. *)
Definition is_writing (op : Operation) : bool :=
  match op with
  | OpCreate | OpUpdate | OpDelete => true
  | OpGetAll | OpGetById | OpUpdateForm => false
  end.

(** Reading of "every request that ends in an error is rolled back by the
    deferred call, without a commit and with the database unchanged", for
    one request. *)
Definition rolled_back_on_error {Store : Type} (db : Store) (o : Outcome Store) : Prop :=
  returned o <> None ->
  called Rollback o /\ ~ called Commit o /\ database o = db.

(** A transaction was opened. *)
Definition began {Store : Type} (o : Outcome Store) : Prop := In (Begin, None) (trace o).

(** ** Notions used in the further properties *)

(** Calls of the validator. *)
Definition is_validator (k : Call) : bool :=
  match k with
  | ParseBody | ParseIdFromUrlParameter | GetAuthentication => true
  | _ => false
  end.

(** Calls that open or close a transaction. *)
Definition is_tx (k : Call) : bool :=
  match k with
  | Begin | Commit | Rollback => true
  | _ => false
  end.

(** The two ways the deferred call closes a transaction. *)
Definition is_closing (k : Call) : bool :=
  match k with
  | Commit | Rollback => true
  | _ => false
  end.

(** The shape of a trace once a transaction is open: calls that neither
    open nor close a transaction, then one closing call, which succeeds and
    is the last entry. *)
Fixpoint inside_tx (tr : list Event) : Prop :=
  match tr with
  | [] => False
  | [(k, e)] => is_closing k = true /\ e = None
  | (k, _) :: rest => is_tx k = false /\ inside_tx rest
  end.

(** The shape of a whole trace: validator calls only, then either nothing,
    or a [Begin] that fails and ends the trace, or a [Begin] that succeeds
    followed by a trace of shape [inside_tx]. *)
Fixpoint bracketed (tr : list Event) : Prop :=
  match tr with
  | [] => True
  | (Begin, Some _) :: rest => rest = []
  | (Begin, None) :: rest => inside_tx rest
  | (k, _) :: rest => is_validator k = true /\ bracketed rest
  end.

(** At most one repository write, and no repository call after it. *)
Fixpoint writes_last (tr : list Event) : Prop :=
  match tr with
  | [] => True
  | (k, _) :: post =>
      if is_mutation k then Forall (fun ev => is_repository (fst ev) = false) post
      else writes_last post
  end.

(** The repository call [k] is about the sensor [id] of the request: a
    read or a deletion of that id, or an update of the sensor fetched under
    that id with the body of the request. *)
Definition concerns {Store : Type} (c : Ctx) (env : Env Store) (db : Store)
  (id : Z) (k : Call) : Prop :=
  match k with
  | Sensor_GetById i | Sensor_GetSensorChannel i
  | Sensor_GetIdUserWhoOwnSensorById i | Sensor_Delete i => i = id
  | Sensor_Update sensor payload =>
      repository_GetById env db id = Ok sensor /\
      ParseBody_SensorUpdate c = Ok payload
  | _ => False
  end.

(** The repository call [k] is one [Create] makes for the body [payload]:
    the lookups of its node and hardware, or the insertion of the body. *)
Definition serves (payload : SensorCreate.t) (k : Call) : Prop :=
  match k with
  | Node_GetById i => i = SensorCreate.IdNode payload
  | Hardware_GetById i => i = SensorCreate.IdHardware payload
  | Sensor_Create p => p = payload
  | _ => False
  end.

(** The handlers that take the sensor id from the URL. *)
Definition takes_id (op : Operation) : bool :=
  match op with
  | OpGetById | OpUpdateForm | OpUpdate | OpDelete => true
  | OpCreate | OpGetAll => false
  end.

(** The error of the first repository lookup of a handler that takes an
    id, if that lookup fails. *)
Definition first_lookup_error {Store : Type} (op : Operation) (env : Env Store)
  (db : Store) (id : Z) : option error :=
  match op with
  | OpGetById | OpUpdateForm | OpUpdate => err_of (repository_GetById env db id)
  | OpDelete => err_of (repository_GetIdUserWhoOwnSensorById env db id)
  | OpCreate | OpGetAll => None
  end.

(** The status a handler sets on success. *)
Definition success_status (op : Operation) : Z :=
  match op with
  | OpCreate => StatusCreated
  | _ => StatusOK
  end.

(** Every spelling of [s] in which each ASCII letter is small or capital. *)
Definition upper_byte (c : ascii) : ascii :=
  let n := nat_of_ascii c in
  if (Nat.leb 97 n && Nat.leb n 122)%bool then ascii_of_nat (n - 32) else c.

Fixpoint case_variants (s : string) : list string :=
  match s with
  | EmptyString => [EmptyString]
  | String c r =>
      let rest := case_variants r in
      (map (String c) rest ++ map (String (upper_byte c)) rest)%list
  end.

(** * Properties *)

(** ** Runs on the in-memory repository *)

Example ToLower_mixed_case : ToLower "SeNsOR" = "sensor".
Proof. reflexivity. Qed.

Example ToLower_keeps_other_bytes : ToLower "Actuator-1 [Z]" = "actuator-1 [z]".
Proof. reflexivity. Qed.

Example Sprintf_d_negative : Sprintf_d (-12) = "-12".
Proof. reflexivity. Qed.

Example insertion_sort_by_time :
  map Channel.Time
    (insertion_sort Channel.t (fun ci cj => Before (Channel.Time ci) (Channel.Time cj))
       [Channel.mk 30 5; Channel.mk 10 6; Channel.mk 20 4; Channel.mk 10 7]) =
  [10; 10; 20; 30].
Proof. reflexivity. Qed.

(** The admin deletes the sensor of user 1: the write is committed. *)
Example Delete_by_admin :
  run (Delete (Mem.request Mem.root 7 "text/html") Mem.env) Mem.db =
  mkOutcome None (Some (mkResponse 200 (Text "Success delete sensor, id: 7")))
    [(ParseIdFromUrlParameter, None); (Begin, None);
     (Sensor_GetIdUserWhoOwnSensorById 7, None); (GetAuthentication, None);
     (Sensor_Delete 7, None); (SendString 200 "Success delete sensor, id: 7", None);
     (Commit, None)]
    (Mem.mkStore (Mem.nodes Mem.db) (Mem.hardwares Mem.db) [] []).
Proof. reflexivity. Qed.

(** Another user is turned away and nothing is written. *)
Example Delete_by_stranger :
  run (Delete (Mem.request Mem.bob 7 "text/html") Mem.env) Mem.db =
  mkOutcome (Some (NewError 403 "You can't delete another user's sensor")) None
    [(ParseIdFromUrlParameter, None); (Begin, None);
     (Sensor_GetIdUserWhoOwnSensorById 7, None); (GetAuthentication, None);
     (Rollback, None)]
    Mem.db.
Proof. reflexivity. Qed.

(** ** Evaluating a handler *)

Ltac unfold_handler :=
  unfold run, handler, Create, GetAll, GetById, UpdateForm, Update, Delete,
         InTx, bind, call, query, exec, fail, ret, c_Accepts, c_Render,
         Status_JSON, Status_SendString, write, log, called.

(** Rewrite with the answers of the collaborators that are known. *)
Ltac answers :=
  repeat match goal with
         | H : _ = Ok _ |- _ => rewrite H
         | H : _ = Err _ |- _ => rewrite H
         | H : _ = @None error |- _ => rewrite H
         | H : _ = Some _ |- _ => rewrite H
         end.

Ltac evaluate := unfold_handler; simpl; answers; simpl.

(** Nothing but the listed events occurs in a trace that is known. *)
Ltac not_in_trace :=
  let H := fresh in
  intros [? H]; simpl in H;
  repeat (destruct H as [H | H]; [discriminate H |]); exact H.

Lemma eqb_string_neq (a b : string) : a <> b -> String.eqb a b = false.
Proof. intros H. destruct (String.eqb_spec a b); [contradiction | reflexivity]. Qed.

Lemma eqb_Z_neq (a b : Z) : a <> b -> Z.eqb a b = false.
Proof. intros H. apply Z.eqb_neq. exact H. Qed.

(** ** Create *)

Section CreateFacts.

Context {Store : Type}.
Variables (c : Ctx) (env : Env Store) (db : Store).
Variables (payload : SensorCreate.t) (node : Node.t) (hardware : Hardware.t).

Hypothesis body_parses : ParseBody_SensorCreate c = Ok payload.
Hypothesis begins : db_Begin env = None.
Hypothesis node_found :
  nodeRepository_GetById env db (SensorCreate.IdNode payload) = Ok node.
Hypothesis hardware_found :
  hardwareRepository_GetById env db (SensorCreate.IdHardware payload) = Ok hardware.

Lemma Create_wrong_type :
  ToLower (Hardware.Type_ hardware) <> "sensor" ->
  run (Create c env) db =
  mkOutcome (Some (NewError 400 "Hardware type not match, type should be sensor")) None
    [(ParseBody, None); (Begin, None);
     (Node_GetById (SensorCreate.IdNode payload), None);
     (Hardware_GetById (SensorCreate.IdHardware payload), None);
     (Rollback, None)] db.
Proof.
  intros Hty. evaluate. rewrite (eqb_string_neq _ _ Hty). reflexivity.
Qed.

Lemma Create_unauthenticated (e : error) :
  ToLower (Hardware.Type_ hardware) = "sensor" ->
  Authentication c = Err e ->
  run (Create c env) db =
  mkOutcome (Some e) None
    [(ParseBody, None); (Begin, None);
     (Node_GetById (SensorCreate.IdNode payload), None);
     (Hardware_GetById (SensorCreate.IdHardware payload), None);
     (GetAuthentication, Some e); (Rollback, None)] db.
Proof.
  intros Hty Hau. evaluate. rewrite Hty. reflexivity.
Qed.

Lemma Create_foreign_node (user : User.t) :
  ToLower (Hardware.Type_ hardware) = "sensor" ->
  Authentication c = Ok user ->
  User.IdUser user <> Node.IdUser node ->
  run (Create c env) db =
  mkOutcome (Some (NewError 403 "You can’t use other user’s node")) None
    [(ParseBody, None); (Begin, None);
     (Node_GetById (SensorCreate.IdNode payload), None);
     (Hardware_GetById (SensorCreate.IdHardware payload), None);
     (GetAuthentication, None); (Rollback, None)] db.
Proof.
  intros Hty Hau Hid. evaluate. rewrite Hty. simpl.
  rewrite (eqb_Z_neq _ _ Hid). reflexivity.
Qed.

Lemma Create_allowed (user : User.t) :
  ToLower (Hardware.Type_ hardware) = "sensor" ->
  Authentication c = Ok user ->
  User.IdUser user = Node.IdUser node ->
  run (Create c env) db =
  match repository_Create env db payload with
  | (None, db') =>
      mkOutcome None (Some (mkResponse 201 (Text "Success add new sensor")))
        [(ParseBody, None); (Begin, None);
         (Node_GetById (SensorCreate.IdNode payload), None);
         (Hardware_GetById (SensorCreate.IdHardware payload), None);
         (GetAuthentication, None); (Sensor_Create payload, None);
         (SendString 201 "Success add new sensor", None); (Commit, None)] db'
  | (Some e, _) =>
      mkOutcome (Some e) None
        [(ParseBody, None); (Begin, None);
         (Node_GetById (SensorCreate.IdNode payload), None);
         (Hardware_GetById (SensorCreate.IdHardware payload), None);
         (GetAuthentication, None); (Sensor_Create payload, Some e);
         (Rollback, None)] db
  end.
Proof.
  intros Hty Hau Hid. evaluate. rewrite Hty. simpl.
  rewrite Hid, Z.eqb_refl. simpl.
  destruct (repository_Create env db payload) as [[e |] db']; reflexivity.
Qed.

End CreateFacts.

(** C2.  A [Create] request whose body parses and whose node and hardware
    are found: a board whose lower-cased type is not "sensor" is answered
    with error 400; a sensor board under a node of another user with error
    403; [repository.Create] is called, and status 201 is written, only when
    both tests pass; and when they pass [repository.Create] is called and,
    if it succeeds, the handler returns nil with status 201. *)
Theorem Create_validates_then_persists :
  forall (Store : Type) (c : Ctx) (env : Env Store) (db : Store)
         (payload : SensorCreate.t) (node : Node.t) (hardware : Hardware.t),
    ParseBody_SensorCreate c = Ok payload ->
    db_Begin env = None ->
    nodeRepository_GetById env db (SensorCreate.IdNode payload) = Ok node ->
    hardwareRepository_GetById env db (SensorCreate.IdHardware payload) = Ok hardware ->
    let o := run (Create c env) db in
    (ToLower (Hardware.Type_ hardware) <> "sensor" ->
     returned o = Some (NewError 400 "Hardware type not match, type should be sensor")) /\
    (ToLower (Hardware.Type_ hardware) = "sensor" ->
     forall user, Authentication c = Ok user ->
       User.IdUser user <> Node.IdUser node ->
       returned o = Some (NewError 403 "You can’t use other user’s node")) /\
    (mutates o \/ (exists b, response o = Some (mkResponse StatusCreated b)) ->
     Create_checks_pass c node hardware) /\
    (Create_checks_pass c node hardware ->
     called (Sensor_Create payload) o /\
     (fst (repository_Create env db payload) = None ->
      returned o = None /\
      response o = Some (mkResponse StatusCreated (Text "Success add new sensor")))).
Proof.
  intros Store c env db payload node hardware Hb Hg Hn Hh o. subst o.
  split; [| split; [| split]].
  - intros Hty. rewrite (Create_wrong_type _ _ _ _ _ _ Hb Hg Hn Hh Hty). reflexivity.
  - intros Hty user Hau Hid.
    rewrite (Create_foreign_node _ _ _ _ _ _ Hb Hg Hn Hh user Hty Hau Hid). reflexivity.
  - intros Hdone.
    destruct (string_dec (ToLower (Hardware.Type_ hardware)) "sensor") as [Hty | Hty].
    + destruct (Authentication c) as [user | e] eqn:Hau.
      * destruct (Z.eq_dec (User.IdUser user) (Node.IdUser node)) as [Hid | Hid].
        -- split; [exact Hty | exists user; split; [exact Hau | exact Hid]].
        -- exfalso.
           rewrite (Create_foreign_node _ _ _ _ _ _ Hb Hg Hn Hh user Hty Hau Hid) in Hdone.
           destruct Hdone as [(k & e & Hin & Hk) | (b & Hr)]; [| discriminate Hr].
           simpl in Hin.
           repeat (destruct Hin as [Hin | Hin];
                   [inversion Hin; subst; discriminate Hk |]).
           exact Hin.
      * exfalso.
        rewrite (Create_unauthenticated _ _ _ _ _ _ Hb Hg Hn Hh e Hty Hau) in Hdone.
        destruct Hdone as [(k & e' & Hin & Hk) | (b & Hr)]; [| discriminate Hr].
        simpl in Hin.
        repeat (destruct Hin as [Hin | Hin];
                [inversion Hin; subst; discriminate Hk |]).
        exact Hin.
    + exfalso.
      rewrite (Create_wrong_type _ _ _ _ _ _ Hb Hg Hn Hh Hty) in Hdone.
      destruct Hdone as [(k & e' & Hin & Hk) | (b & Hr)]; [| discriminate Hr].
      simpl in Hin.
      repeat (destruct Hin as [Hin | Hin];
              [inversion Hin; subst; discriminate Hk |]).
      exact Hin.
  - intros (Hty & user & Hau & Hid).
    rewrite (Create_allowed _ _ _ _ _ _ Hb Hg Hn Hh user Hty Hau Hid).
    destruct (repository_Create env db payload) as [[e |] db']; simpl.
    + split; [| discriminate]. exists (Some e). simpl. tauto.
    + split; [| intros _; split; reflexivity]. exists None. simpl. tauto.
Qed.

(** The request of [Mem.alice], who owns node 10, for a new sensor on a
    sensor board: all four parts of the statement apply. *)
Lemma Create_validates_then_persists_witness :
  let o := run (Create (Mem.request Mem.alice 7 "application/json") Mem.env) Mem.db in
  called (Sensor_Create (SensorCreate.mk "barometer" 100 10)) o /\
  returned o = None /\
  response o = Some (mkResponse StatusCreated (Text "Success add new sensor")).
Proof.
  destruct (Create_validates_then_persists Mem.Store
              (Mem.request Mem.alice 7 "application/json") Mem.env Mem.db
              (SensorCreate.mk "barometer" 100 10) (Node.mk 10 1)
              (Hardware.mk 100 "Sensor")
              eq_refl eq_refl eq_refl eq_refl) as (_ & _ & _ & H).
  destruct H as [Hc Hr].
  - split; [reflexivity |]. exists Mem.alice. split; reflexivity.
  - split; [exact Hc | exact (Hr eq_refl)].
Defined.

(** [Create] reads only [IdUser] of the authenticated user. *)
Lemma Create_ignores_IsAdmin {Store : Type} (c : Ctx) (env : Env Store) (db : Store)
  (user : User.t) (flag : bool) :
  Authentication c = Ok user ->
  run (Create (with_Authentication c (Ok (User.mk (User.IdUser user) flag))) env) db =
  run (Create c env) db.
Proof.
  intros Hau. unfold_handler. simpl. rewrite Hau. reflexivity.
Qed.

(** C8.  [Create] has no admin override.  When the request reaches the
    ownership test and the node belongs to somebody else, the answer is
    error 403 whatever [IsAdmin] says, also for an admin; and the outcome
    of [Create] does not depend on the flag at all. *)
Theorem Create_no_admin_override :
  forall (Store : Type) (c : Ctx) (env : Env Store) (db : Store)
         (payload : SensorCreate.t) (node : Node.t) (hardware : Hardware.t)
         (user : User.t),
    ParseBody_SensorCreate c = Ok payload ->
    db_Begin env = None ->
    nodeRepository_GetById env db (SensorCreate.IdNode payload) = Ok node ->
    hardwareRepository_GetById env db (SensorCreate.IdHardware payload) = Ok hardware ->
    ToLower (Hardware.Type_ hardware) = "sensor" ->
    Authentication c = Ok user ->
    Node.IdUser node <> User.IdUser user ->
    returned (run (Create c env) db) =
      Some (NewError 403 "You can’t use other user’s node") /\
    ~ mutates (run (Create c env) db) /\
    forall flag : bool,
      run (Create (with_Authentication c (Ok (User.mk (User.IdUser user) flag))) env) db =
      run (Create c env) db.
Proof.
  intros Store c env db payload node hardware user Hb Hg Hn Hh Hty Hau Hid.
  assert (Hid' : User.IdUser user <> Node.IdUser node) by congruence.
  split; [| split].
  - rewrite (Create_foreign_node _ _ _ _ _ _ Hb Hg Hn Hh user Hty Hau Hid'). reflexivity.
  - rewrite (Create_foreign_node _ _ _ _ _ _ Hb Hg Hn Hh user Hty Hau Hid').
    intros (k & e & Hin & Hk). simpl in Hin.
    repeat (destruct Hin as [Hin | Hin]; [inversion Hin; subst; discriminate Hk |]).
    exact Hin.
  - intros flag. apply Create_ignores_IsAdmin. exact Hau.
Qed.

(** The admin [Mem.root] asks for a sensor under node 10 of user 1. *)
Lemma Create_no_admin_override_witness :
  User.IsAdmin Mem.root = true /\
  returned (run (Create (Mem.request Mem.root 7 "application/json") Mem.env) Mem.db) =
    Some (NewError 403 "You can’t use other user’s node").
Proof.
  split; [reflexivity |].
  apply (Create_no_admin_override Mem.Store
           (Mem.request Mem.root 7 "application/json") Mem.env Mem.db
           (SensorCreate.mk "barometer" 100 10) (Node.mk 10 1)
           (Hardware.mk 100 "Sensor") Mem.root
           eq_refl eq_refl eq_refl eq_refl eq_refl eq_refl).
  simpl. discriminate.
Defined.

(** C10.  The hardware-type test comes before authentication.  Two
    [Create] requests with the same parsed body and the same node and
    hardware answers, for a board that is not a sensor board, get the same
    error 400 and make the same calls, none of them [GetAuthentication],
    whatever authentication would have said. *)
Theorem Create_type_check_precedes_authentication :
  forall (Store1 Store2 : Type)
         (c1 c2 : Ctx) (env1 : Env Store1) (env2 : Env Store2)
         (db1 : Store1) (db2 : Store2)
         (payload : SensorCreate.t) (node : Node.t) (hardware : Hardware.t),
    ParseBody_SensorCreate c1 = Ok payload ->
    ParseBody_SensorCreate c2 = Ok payload ->
    db_Begin env1 = None ->
    db_Begin env2 = None ->
    nodeRepository_GetById env1 db1 (SensorCreate.IdNode payload) = Ok node ->
    nodeRepository_GetById env2 db2 (SensorCreate.IdNode payload) = Ok node ->
    hardwareRepository_GetById env1 db1 (SensorCreate.IdHardware payload) = Ok hardware ->
    hardwareRepository_GetById env2 db2 (SensorCreate.IdHardware payload) = Ok hardware ->
    ToLower (Hardware.Type_ hardware) <> "sensor" ->
    let o1 := run (Create c1 env1) db1 in
    let o2 := run (Create c2 env2) db2 in
    returned o1 = Some (NewError 400 "Hardware type not match, type should be sensor") /\
    returned o2 = returned o1 /\
    response o2 = response o1 /\
    trace o2 = trace o1 /\
    ~ called GetAuthentication o1 /\
    ~ called GetAuthentication o2.
Proof.
  intros Store1 Store2 c1 c2 env1 env2 db1 db2 payload node hardware
         Hb1 Hb2 Hg1 Hg2 Hn1 Hn2 Hh1 Hh2 Hty o1 o2.
  subst o1 o2.
  rewrite (Create_wrong_type _ _ _ _ _ _ Hb1 Hg1 Hn1 Hh1 Hty).
  rewrite (Create_wrong_type _ _ _ _ _ _ Hb2 Hg2 Hn2 Hh2 Hty).
  simpl. repeat split; unfold called; simpl; not_in_trace.
Qed.

(** The same order for an actuator board, once from [Mem.alice] and once
    from a client whose authentication fails. *)
Lemma Create_type_check_precedes_authentication_witness :
  let c1 := mkCtx (Ok (SensorCreate.mk "valve" 200 10))
              (Err (Foreign "no body")) (Err (Foreign "no id"))
              (Ok Mem.alice) "application/json" (fun _ => None) None in
  let c2 := with_Authentication c1 (Err (NewError 401 "Unauthorized")) in
  returned (run (Create c2 Mem.env) Mem.db) = returned (run (Create c1 Mem.env) Mem.db).
Proof.
  intros c1 c2.
  apply (Create_type_check_precedes_authentication Mem.Store Mem.Store
           c1 c2 Mem.env Mem.env Mem.db Mem.db
           (SensorCreate.mk "valve" 200 10) (Node.mk 10 1)
           (Hardware.mk 200 "actuator")
           eq_refl eq_refl eq_refl eq_refl eq_refl eq_refl eq_refl eq_refl).
  simpl. discriminate.
Defined.

(** ** The owner-or-admin test *)

Lemma forbidden_true (owner : Z) (user : User.t) :
  owner <> User.IdUser user -> User.IsAdmin user = false -> forbidden owner user = true.
Proof.
  intros Hid Had. unfold forbidden. rewrite (eqb_Z_neq _ _ Hid), Had. reflexivity.
Qed.

Lemma forbidden_false (owner : Z) (user : User.t) :
  owner = User.IdUser user \/ User.IsAdmin user = true -> forbidden owner user = false.
Proof.
  intros [Hid | Had]; unfold forbidden.
  - rewrite Hid, Z.eqb_refl. reflexivity.
  - rewrite Had. apply andb_false_r.
Qed.

Section Guarded.

Context {Store : Type}.
Variable sort_Slice : SliceSort.
Variables (c : Ctx) (env : Env Store) (db : Store).
Variables (id owner : Z) (user : User.t).

Hypothesis id_parses : ParseId c = Ok id.
Hypothesis begins : db_Begin env = None.
Hypothesis owner_found : repository_GetIdUserWhoOwnSensorById env db id = Ok owner.
Hypothesis authenticated : Authentication c = Ok user.

Lemma GetById_forbidden (sensor : Sensor.t) (channels : list Channel.t) :
  repository_GetById env db id = Ok sensor ->
  repository_GetSensorChannel env db id = Ok channels ->
  forbidden owner user = true ->
  run (GetById sort_Slice c env) db =
  mkOutcome (Some (NewError 403 "You can’t see another user’s sensor")) None
    [(ParseIdFromUrlParameter, None); (Begin, None); (Sensor_GetById id, None);
     (Sensor_GetSensorChannel id, None); (Sensor_GetIdUserWhoOwnSensorById id, None);
     (GetAuthentication, None); (Rollback, None)] db.
Proof.
  intros Hs Hc Hf. evaluate. rewrite Hf. reflexivity.
Qed.

Lemma GetById_allowed (sensor : Sensor.t) (channels : list Channel.t) :
  repository_GetById env db id = Ok sensor ->
  repository_GetSensorChannel env db id = Ok channels ->
  forbidden owner user = false ->
  exists rest,
    trace (run (GetById sort_Slice c env) db) =
    ([(ParseIdFromUrlParameter, None); (Begin, None); (Sensor_GetById id, None);
      (Sensor_GetSensorChannel id, None); (Sensor_GetIdUserWhoOwnSensorById id, None);
      (GetAuthentication, None); (Accepts, None)] ++ rest)%list.
Proof.
  intros Hs Hc Hf. evaluate. rewrite Hf. simpl.
  destruct (String.eqb (Accepted c) "text/html"); unfold c_Render, Status_JSON, write, log.
  - destruct (RenderError c "sensor_detail"); simpl; eexists; reflexivity.
  - destruct (JSONError c); simpl; eexists; reflexivity.
Qed.

Lemma Update_forbidden (payload : SensorUpdate.t) (sensor : Sensor.t) :
  ParseBody_SensorUpdate c = Ok payload ->
  repository_GetById env db id = Ok sensor ->
  forbidden owner user = true ->
  run (Update c env) db =
  mkOutcome (Some (NewError 403 "You can’t edit another user’s sensor")) None
    [(ParseIdFromUrlParameter, None); (ParseBody, None); (Begin, None);
     (Sensor_GetById id, None); (Sensor_GetIdUserWhoOwnSensorById id, None);
     (GetAuthentication, None); (Rollback, None)] db.
Proof.
  intros Hb Hs Hf. evaluate. rewrite Hf. reflexivity.
Qed.

Lemma Update_allowed (payload : SensorUpdate.t) (sensor : Sensor.t) :
  ParseBody_SensorUpdate c = Ok payload ->
  repository_GetById env db id = Ok sensor ->
  forbidden owner user = false ->
  run (Update c env) db =
  match repository_Update env db sensor payload with
  | (None, db') =>
      mkOutcome None (Some (mkResponse 200 (Text "Success edit sensor")))
        [(ParseIdFromUrlParameter, None); (ParseBody, None); (Begin, None);
         (Sensor_GetById id, None); (Sensor_GetIdUserWhoOwnSensorById id, None);
         (GetAuthentication, None); (Sensor_Update sensor payload, None);
         (SendString 200 "Success edit sensor", None); (Commit, None)] db'
  | (Some e, _) =>
      mkOutcome (Some e) None
        [(ParseIdFromUrlParameter, None); (ParseBody, None); (Begin, None);
         (Sensor_GetById id, None); (Sensor_GetIdUserWhoOwnSensorById id, None);
         (GetAuthentication, None); (Sensor_Update sensor payload, Some e);
         (Rollback, None)] db
  end.
Proof.
  intros Hb Hs Hf. evaluate. rewrite Hf. simpl.
  destruct (repository_Update env db sensor payload) as [[e |] db']; reflexivity.
Qed.

Lemma Delete_forbidden :
  forbidden owner user = true ->
  run (Delete c env) db =
  mkOutcome (Some (NewError 403 "You can't delete another user's sensor")) None
    [(ParseIdFromUrlParameter, None); (Begin, None);
     (Sensor_GetIdUserWhoOwnSensorById id, None);
     (GetAuthentication, None); (Rollback, None)] db.
Proof.
  intros Hf. evaluate. rewrite Hf. reflexivity.
Qed.

Lemma Delete_allowed :
  forbidden owner user = false ->
  run (Delete c env) db =
  match repository_Delete env db id with
  | (None, db') =>
      mkOutcome None
        (Some (mkResponse 200 (Text ("Success delete sensor, id: " ++ Sprintf_d id))))
        [(ParseIdFromUrlParameter, None); (Begin, None);
         (Sensor_GetIdUserWhoOwnSensorById id, None);
         (GetAuthentication, None); (Sensor_Delete id, None);
         (SendString 200 ("Success delete sensor, id: " ++ Sprintf_d id), None);
         (Commit, None)] db'
  | (Some e, _) =>
      mkOutcome (Some e) None
        [(ParseIdFromUrlParameter, None); (Begin, None);
         (Sensor_GetIdUserWhoOwnSensorById id, None);
         (GetAuthentication, None); (Sensor_Delete id, Some e);
         (Rollback, None)] db
  end.
Proof.
  intros Hf. evaluate. rewrite Hf. simpl.
  destruct (repository_Delete env db id) as [[e |] db']; reflexivity.
Qed.

End Guarded.

(** No repository write occurs in a trace that is known. *)
Ltac no_mutation :=
  let k := fresh "k" in
  let e := fresh "e" in
  let Hin := fresh "Hin" in
  let Hk := fresh "Hk" in
  intros (k & e & Hin & Hk); simpl in Hin;
  repeat (destruct Hin as [Hin | Hin]; [inversion Hin; subst; discriminate Hk |]);
  exact Hin.

(** C1.  [GetById], [Update] and [Delete], once they reach the
    owner-or-admin test: a requester who is neither the owner of the sensor
    nor an admin gets error 403, no repository write is made and no
    response is written; the owner and any admin pass the test, and the
    call that follows it is made. *)
Theorem owner_or_admin_check :
  forall (Store : Type) (sort_Slice : SliceSort) (op : Operation)
         (c : Ctx) (env : Env Store) (db : Store) (id owner : Z) (user : User.t),
    reaches_check op c env db id owner user ->
    let o := run (handler sort_Slice op c env) db in
    (owner <> User.IdUser user -> User.IsAdmin user = false ->
     (exists message, returned o = Some (NewError 403 message)) /\
     ~ mutates o /\ response o = None) /\
    (owner = User.IdUser user \/ User.IsAdmin user = true ->
     exists k, guarded_call op c env db id k /\ called k o).
Proof.
  intros Store sort_Slice op c env db id owner user (Hid & Hg & Ho & Hau & Hop) o.
  subst o. split.
  - intros Hne Had. pose proof (forbidden_true _ _ Hne Had) as Hf.
    destruct op; simpl in Hop; try contradiction; simpl handler.
    + destruct Hop as (sensor & channels & Hs & Hc).
      rewrite (GetById_forbidden sort_Slice _ _ _ _ _ _ Hid Hg Ho Hau _ _ Hs Hc Hf).
      simpl. repeat split; [eexists; reflexivity | no_mutation].
    + destruct Hop as (payload & sensor & Hb & Hs).
      rewrite (Update_forbidden _ _ _ _ _ _ Hid Hg Ho Hau _ _ Hb Hs Hf).
      simpl. repeat split; [eexists; reflexivity | no_mutation].
    + rewrite (Delete_forbidden _ _ _ _ _ _ Hid Hg Ho Hau Hf).
      simpl. repeat split; [eexists; reflexivity | no_mutation].
  - intros Hok. pose proof (forbidden_false _ _ Hok) as Hf.
    destruct op; simpl in Hop; try contradiction; simpl handler.
    + destruct Hop as (sensor & channels & Hs & Hc).
      destruct (GetById_allowed sort_Slice _ _ _ _ _ _ Hid Hg Ho Hau _ _ Hs Hc Hf)
        as [rest Htr].
      exists Accepts. split; [reflexivity |].
      exists None. rewrite Htr. simpl. tauto.
    + destruct Hop as (payload & sensor & Hb & Hs).
      exists (Sensor_Update sensor payload). split.
      * exists sensor, payload. repeat split; assumption.
      * rewrite (Update_allowed _ _ _ _ _ _ Hid Hg Ho Hau _ _ Hb Hs Hf).
        destruct (repository_Update env db sensor payload) as [[e |] db'];
          [exists (Some e) | exists None]; simpl; tauto.
    + exists (Sensor_Delete id). split; [reflexivity |].
      rewrite (Delete_allowed _ _ _ _ _ _ Hid Hg Ho Hau Hf).
      destruct (repository_Delete env db id) as [[e |] db'];
        [exists (Some e) | exists None]; simpl; tauto.
Qed.

(** [Mem.bob] tries to delete the sensor of user 1. *)
Lemma owner_or_admin_check_witness :
  let o := run (handler insertion_sort OpDelete (Mem.request Mem.bob 7 "text/html") Mem.env)
             Mem.db in
  (exists message, returned o = Some (NewError 403 message)) /\
  ~ mutates o /\ response o = None.
Proof.
  intros o.
  refine (proj1 (owner_or_admin_check Mem.Store insertion_sort OpDelete
            (Mem.request Mem.bob 7 "text/html") Mem.env Mem.db 7 1 Mem.bob _) _ _).
  - repeat split.
  - simpl. discriminate.
  - reflexivity.
Defined.

(** ** Sorting *)

Section Sorting.

Context {A : Type}.
Variable less : A -> A -> bool.

Lemma sink_permutation (x : A) (back : list A) :
  Permutation (x :: back) (sink less x back).
Proof.
  induction back as [| y r IH]; simpl.
  - apply Permutation_refl.
  - destruct (less x y).
    + eapply perm_trans; [apply perm_swap | apply perm_skip; exact IH].
    + apply Permutation_refl.
Qed.

Lemma fold_sink_permutation (l back : list A) :
  Permutation (rev l ++ back) (fold_left (fun b x => sink less x b) l back).
Proof.
  revert back. induction l as [| x l IH]; intros back; simpl.
  - apply Permutation_refl.
  - eapply perm_trans; [| apply IH].
    rewrite <- app_assoc. simpl.
    apply Permutation_app_head. apply sink_permutation.
Qed.

Lemma insertion_sort_permutation (l : list A) :
  Permutation l (insertion_sort A less l).
Proof.
  unfold insertion_sort.
  eapply perm_trans; [apply Permutation_rev |].
  eapply perm_trans; [| apply Permutation_rev].
  pose proof (fold_sink_permutation l []) as H.
  rewrite app_nil_r in H. exact H.
Qed.

Hypothesis asymmetric : forall a b, less a b = true -> less b a = false.

(** The front of the slice, read backwards, stays in descending order when
    an element sinks into it. *)
Lemma sink_descending (x : A) (back : list A) :
  Sorted (fun a b => less a b = false) back ->
  Sorted (fun a b => less a b = false) (sink less x back).
Proof.
  induction back as [| y r IH]; intros Hs; simpl.
  - repeat constructor.
  - destruct (less x y) eqn:Hxy.
    + apply Sorted_inv in Hs. destruct Hs as [Hr Hy].
      constructor; [apply IH; exact Hr |].
      destruct r as [| z r']; simpl.
      * constructor. apply asymmetric. exact Hxy.
      * destruct (less x z).
        -- constructor. apply HdRel_inv in Hy. exact Hy.
        -- constructor. apply asymmetric. exact Hxy.
    + constructor; [exact Hs | constructor; exact Hxy].
Qed.

Lemma fold_sink_descending (l back : list A) :
  Sorted (fun a b => less a b = false) back ->
  Sorted (fun a b => less a b = false) (fold_left (fun b x => sink less x b) l back).
Proof.
  revert back. induction l as [| x l IH]; intros back Hs; simpl.
  - exact Hs.
  - apply IH. apply sink_descending. exact Hs.
Qed.

End Sorting.

Lemma Sorted_snoc {A : Type} (R : A -> A -> Prop) (m : list A) (a : A) :
  Sorted R m ->
  (forall m' x, m = (m' ++ [x])%list -> R x a) ->
  Sorted R (m ++ [a]).
Proof.
  induction m as [| y m IH]; intros Hs Hlast; simpl.
  - repeat constructor.
  - apply Sorted_inv in Hs. destruct Hs as [Hm Hy].
    constructor.
    + apply IH; [exact Hm |].
      intros m' x Heq. apply (Hlast (y :: m')%list x). rewrite Heq. reflexivity.
    + destruct m as [| z m2]; simpl.
      * constructor. apply (Hlast [] y). reflexivity.
      * constructor. apply HdRel_inv in Hy. exact Hy.
Qed.

Lemma Sorted_rev {A : Type} (R : A -> A -> Prop) (l : list A) :
  Sorted R l -> Sorted (fun a b => R b a) (rev l).
Proof.
  induction l as [| a l IH]; intros Hs; simpl.
  - constructor.
  - apply Sorted_inv in Hs. destruct Hs as [Hl Ha].
    apply Sorted_snoc; [apply IH; exact Hl |].
    intros m' x Heq.
    destruct l as [| b l']; simpl in Heq.
    + destruct m'; discriminate Heq.
    + apply app_inj_tail in Heq. destruct Heq as [_ Hb]. subst x.
      apply HdRel_inv in Ha. exact Ha.
Qed.

Lemma Sorted_weaken {A : Type} (R R' : A -> A -> Prop) (l : list A) :
  (forall a b, R a b -> R' a b) -> Sorted R l -> Sorted R' l.
Proof.
  intros Himp. induction 1 as [| a l Hl IH Ha]; constructor.
  - exact IH.
  - destruct Ha; constructor. apply Himp. assumption.
Qed.

(** The procedure Go runs on short slices meets the contract of
    [sort.Slice]. *)
Lemma insertion_sort_contract : sort_contract insertion_sort.
Proof.
  intros A less l. split.
  - apply insertion_sort_permutation.
  - intros (Hirr & Htr & _). unfold ascending, insertion_sort.
    apply (Sorted_rev (fun a b => less a b = false)).
    apply fold_sink_descending; [| constructor].
    intros a b Hab. destruct (less b a) eqn:Hba; [| reflexivity].
    rewrite <- (Hirr a). symmetry. apply (Htr a b a); assumption.
Qed.

Lemma Before_strict_weak_order :
  strict_weak_order (fun ci cj => Before (Channel.Time ci) (Channel.Time cj)).
Proof.
  unfold Before. repeat split.
  - intros a. apply Z.ltb_irrefl.
  - intros a b c Hab Hbc. apply Z.ltb_lt in Hab, Hbc. apply Z.ltb_lt. lia.
  - intros a b c Hab Hbc. apply Z.ltb_ge in Hab, Hbc. apply Z.ltb_ge. lia.
Qed.

(** ** GetById and GetAll *)

Ltac no_response :=
  let k := fresh "k" in
  let e := fresh "e" in
  let Hin := fresh "Hin" in
  let Hk := fresh "Hk" in
  intros (k & e & Hin & Hk); simpl in Hin;
  repeat (destruct Hin as [Hin | Hin]; [inversion Hin; subst; discriminate Hk |]);
  exact Hin.

Section Reads.

Context {Store : Type}.
Variable sort_Slice : SliceSort.
Variables (c : Ctx) (env : Env Store) (db : Store).

(** The outcome of [GetById] once the owner-or-admin test is passed. *)
Lemma GetById_allowed_outcome (id owner : Z) (user : User.t)
  (sensor : Sensor.t) (channels : list Channel.t) :
  ParseId c = Ok id ->
  db_Begin env = None ->
  repository_GetById env db id = Ok sensor ->
  repository_GetSensorChannel env db id = Ok channels ->
  repository_GetIdUserWhoOwnSensorById env db id = Ok owner ->
  Authentication c = Ok user ->
  forbidden owner user = false ->
  let start :=
    [(ParseIdFromUrlParameter, None); (Begin, None); (Sensor_GetById id, None);
     (Sensor_GetSensorChannel id, None); (Sensor_GetIdUserWhoOwnSensorById id, None);
     (GetAuthentication, None); (Accepts, @None error)] in
  run (GetById sort_Slice c env) db =
  if String.eqb (Accepted c) "text/html" then
    let shown :=
      sort_Slice Channel.t
        (fun ci cj => Before (Channel.Time ci) (Channel.Time cj)) channels in
    let page := Render "sensor_detail" (detail_bindings sensor shown) "layouts/main" in
    match RenderError c "sensor_detail" with
    | None =>
        mkOutcome None
          (Some (mkResponse 200
                   (HTML "sensor_detail" (detail_bindings sensor shown) "layouts/main")))
          (start ++ [(page, None); (Commit, None)]) db
    | Some e => mkOutcome (Some e) None (start ++ [(page, Some e); (Rollback, None)]) db
    end
  else
    let v := JSONSensorWithChannel sensor channels in
    match JSONError c with
    | None =>
        mkOutcome None (Some (mkResponse 200 v))
          (start ++ [(JSON 200 v, None); (Commit, None)]) db
    | Some e => mkOutcome (Some e) None (start ++ [(JSON 200 v, Some e); (Rollback, None)]) db
    end.
Proof.
  intros Hid Hg Hs Hc Ho Hau Hf start. subst start. evaluate. rewrite Hf. simpl.
  destruct (String.eqb (Accepted c) "text/html"); unfold c_Render, Status_JSON, write, log.
  - destruct (RenderError c "sensor_detail"); reflexivity.
  - destruct (JSONError c); reflexivity.
Qed.

(** [GetById] returns nil, or gets to write a response, only past the
    owner-or-admin test. *)
Lemma GetById_inversion :
  returned (run (GetById sort_Slice c env) db) = None \/
  responds (run (GetById sort_Slice c env) db) ->
  exists id owner user sensor channels,
    ParseId c = Ok id /\
    db_Begin env = None /\
    repository_GetById env db id = Ok sensor /\
    repository_GetSensorChannel env db id = Ok channels /\
    repository_GetIdUserWhoOwnSensorById env db id = Ok owner /\
    Authentication c = Ok user /\
    forbidden owner user = false.
Proof.
  intros H.
  destruct (ParseId c) as [id | e] eqn:Hid;
    [| exfalso; revert H; evaluate; intros [H | H]; [discriminate H | revert H; no_response]].
  destruct (db_Begin env) as [e |] eqn:Hg;
    [exfalso; revert H; evaluate; intros [H | H]; [discriminate H | revert H; no_response] |].
  destruct (repository_GetById env db id) as [sensor | e] eqn:Hs;
    [| exfalso; revert H; evaluate; intros [H | H]; [discriminate H | revert H; no_response]].
  destruct (repository_GetSensorChannel env db id) as [channels | e] eqn:Hc;
    [| exfalso; revert H; evaluate; intros [H | H]; [discriminate H | revert H; no_response]].
  destruct (repository_GetIdUserWhoOwnSensorById env db id) as [owner | e] eqn:Ho;
    [| exfalso; revert H; evaluate; intros [H | H]; [discriminate H | revert H; no_response]].
  destruct (Authentication c) as [user | e] eqn:Hau;
    [| exfalso; revert H; evaluate; intros [H | H]; [discriminate H | revert H; no_response]].
  destruct (forbidden owner user) eqn:Hf;
    [exfalso; revert H; evaluate; rewrite Hf; simpl;
     intros [H | H]; [discriminate H | revert H; no_response] |].
  exists id, owner, user, sensor, channels. repeat split; assumption.
Qed.

(** The outcome of [GetAll] once the sensors are fetched. *)
Lemma GetAll_fetched_outcome (user : User.t) (sensors : list Sensor.t) :
  db_Begin env = None ->
  Authentication c = Ok user ->
  repository_GetAll env db user = Ok sensors ->
  let start :=
    [(Begin, None); (GetAuthentication, None); (Sensor_GetAll user, None);
     (Accepts, @None error)] in
  run (GetAll c env) db =
  if String.eqb (Accepted c) "text/html" then
    let page := Render "sensor" (list_bindings sensors) "layouts/main" in
    match RenderError c "sensor" with
    | None =>
        mkOutcome None
          (Some (mkResponse 200 (HTML "sensor" (list_bindings sensors) "layouts/main")))
          (start ++ [(page, None); (Commit, None)]) db
    | Some e => mkOutcome (Some e) None (start ++ [(page, Some e); (Rollback, None)]) db
    end
  else
    let v := JSONSensors sensors in
    match JSONError c with
    | None =>
        mkOutcome None (Some (mkResponse 200 v))
          (start ++ [(JSON 200 v, None); (Commit, None)]) db
    | Some e => mkOutcome (Some e) None (start ++ [(JSON 200 v, Some e); (Rollback, None)]) db
    end.
Proof.
  intros Hg Hau Hs start. subst start. evaluate.
  destruct (String.eqb (Accepted c) "text/html"); unfold c_Render, Status_JSON, write, log.
  - destruct (RenderError c "sensor"); reflexivity.
  - destruct (JSONError c); reflexivity.
Qed.

Lemma GetAll_inversion :
  returned (run (GetAll c env) db) = None ->
  exists user sensors,
    db_Begin env = None /\
    Authentication c = Ok user /\
    repository_GetAll env db user = Ok sensors.
Proof.
  intros H.
  destruct (db_Begin env) as [e |] eqn:Hg;
    [exfalso; revert H; evaluate; discriminate |].
  destruct (Authentication c) as [user | e] eqn:Hau;
    [| exfalso; revert H; evaluate; discriminate].
  destruct (repository_GetAll env db user) as [sensors | e] eqn:Hs;
    [| exfalso; revert H; evaluate; discriminate].
  exists user, sensors. repeat split; assumption.
Qed.

End Reads.

Lemma by_time_of_ascending (l : list Channel.t) :
  ascending (fun ci cj => Before (Channel.Time ci) (Channel.Time cj)) l -> by_time l.
Proof.
  apply Sorted_weaken. intros a b H. unfold Before in H. apply Z.ltb_ge in H. exact H.
Qed.

(** C4.  Whenever [GetById] hands bindings to a template, it is on the
    text/html branch, the template is "sensor_detail", and the list bound
    to "channel" is a rearrangement of the list the repository returned in
    which no reading is earlier than the one before it. *)
Theorem GetById_html_channels_by_time :
  forall (Store : Type) (sort_Slice : SliceSort),
    sort_contract sort_Slice ->
    forall (c : Ctx) (env : Env Store) (db : Store)
           (name : string) (bind : list (string * Binding)) (layout : string)
           (e : option error),
      In (Render name bind layout, e) (trace (run (GetById sort_Slice c env) db)) ->
      exists id sensor channels shown,
        ParseId c = Ok id /\
        repository_GetById env db id = Ok sensor /\
        repository_GetSensorChannel env db id = Ok channels /\
        Accepted c = "text/html" /\
        name = "sensor_detail" /\
        bind = detail_bindings sensor shown /\
        Permutation channels shown /\
        by_time shown.
Proof.
  intros Store sort_Slice Hsort c env db name bind layout e Hin.
  destruct (GetById_inversion sort_Slice c env db) as
    (id & owner & user & sensor & channels & Hid & Hg & Hs & Hc & Ho & Hau & Hf).
  { right. exists (Render name bind layout), e. split; [exact Hin | reflexivity]. }
  rewrite (GetById_allowed_outcome sort_Slice c env db id owner user sensor channels
             Hid Hg Hs Hc Ho Hau Hf) in Hin.
  destruct (Hsort Channel.t
              (fun ci cj => Before (Channel.Time ci) (Channel.Time cj)) channels)
    as [Hperm Hasc].
  exists id, sensor, channels,
    (sort_Slice Channel.t
       (fun ci cj => Before (Channel.Time ci) (Channel.Time cj)) channels).
  destruct (String.eqb_spec (Accepted c) "text/html") as [Hacc | Hacc].
  - assert (Hpage : name = "sensor_detail" /\
                    bind = detail_bindings sensor
                             (sort_Slice Channel.t
                                (fun ci cj => Before (Channel.Time ci) (Channel.Time cj))
                                channels)).
    { destruct (RenderError c "sensor_detail"); simpl in Hin;
        repeat (destruct Hin as [Hin | Hin]; [try discriminate Hin |]);
        try contradiction; inversion Hin; split; reflexivity. }
    destruct Hpage as [Hname Hbind].
    repeat split; try assumption.
    apply by_time_of_ascending. apply Hasc. apply Before_strict_weak_order.
  - exfalso.
    destruct (JSONError c); simpl in Hin;
      repeat (destruct Hin as [Hin | Hin]; [discriminate Hin |]); exact Hin.
Qed.

(** [Mem.alice] opens the page of her sensor, whose readings are stored in
    the order 30, 10, 20. *)
Lemma GetById_html_channels_by_time_witness :
  exists id sensor channels shown,
    ParseId (Mem.request Mem.alice 7 "text/html") = Ok id /\
    repository_GetById Mem.env Mem.db id = Ok sensor /\
    repository_GetSensorChannel Mem.env Mem.db id = Ok channels /\
    Accepted (Mem.request Mem.alice 7 "text/html") = "text/html" /\
    "sensor_detail" = "sensor_detail" /\
    detail_bindings (Sensor.mk 7 "thermometer" 100 10)
      [Channel.mk 10 6; Channel.mk 20 4; Channel.mk 30 5] =
    detail_bindings sensor shown /\
    Permutation channels shown /\
    by_time shown.
Proof.
  apply (GetById_html_channels_by_time Mem.Store insertion_sort insertion_sort_contract
           (Mem.request Mem.alice 7 "text/html") Mem.env Mem.db
           "sensor_detail"
           (detail_bindings (Sensor.mk 7 "thermometer" 100 10)
              [Channel.mk 10 6; Channel.mk 20 4; Channel.mk 30 5])
           "layouts/main" None).
  simpl. tauto.
Defined.

(** C5.  A [GetAll] or [GetById] request that returns nil is answered in
    the format negotiated: an HTML page when [c.Accepts] yields text/html,
    and status 200 with a JSON body in every other case, the body being the
    list of sensors for [GetAll] and the sensor with its channels for
    [GetById]. *)
Theorem response_format_follows_Accepts :
  forall (Store : Type) (sort_Slice : SliceSort)
         (c : Ctx) (env : Env Store) (db : Store),
    (returned (run (GetAll c env) db) = None ->
     exists user sensors,
       Authentication c = Ok user /\
       repository_GetAll env db user = Ok sensors /\
       (Accepted c = "text/html" ->
        response (run (GetAll c env) db) =
        Some (mkResponse 200 (HTML "sensor" (list_bindings sensors) "layouts/main"))) /\
       (Accepted c <> "text/html" ->
        response (run (GetAll c env) db) =
        Some (mkResponse StatusOK (JSONSensors sensors)))) /\
    (returned (run (GetById sort_Slice c env) db) = None ->
     exists id sensor channels,
       ParseId c = Ok id /\
       repository_GetById env db id = Ok sensor /\
       repository_GetSensorChannel env db id = Ok channels /\
       (Accepted c = "text/html" ->
        exists shown,
          response (run (GetById sort_Slice c env) db) =
          Some (mkResponse 200
                  (HTML "sensor_detail" (detail_bindings sensor shown) "layouts/main"))) /\
       (Accepted c <> "text/html" ->
        response (run (GetById sort_Slice c env) db) =
        Some (mkResponse StatusOK (JSONSensorWithChannel sensor channels)))).
Proof.
  intros Store sort_Slice c env db. split.
  - intros Hret.
    destruct (GetAll_inversion c env db Hret) as (user & sensors & Hg & Hau & Hs).
    exists user, sensors. split; [exact Hau | split; [exact Hs |]].
    rewrite (GetAll_fetched_outcome c env db user sensors Hg Hau Hs) in Hret |- *.
    split; intros Hacc.
    + rewrite Hacc in Hret |- *. simpl in Hret |- *.
      destruct (RenderError c "sensor"); [discriminate Hret | reflexivity].
    + rewrite (eqb_string_neq _ _ Hacc) in Hret |- *. simpl in Hret |- *.
      destruct (JSONError c); [discriminate Hret | reflexivity].
  - intros Hret.
    destruct (GetById_inversion sort_Slice c env db (or_introl Hret)) as
      (id & owner & user & sensor & channels & Hid & Hg & Hs & Hc & Ho & Hau & Hf).
    exists id, sensor, channels.
    split; [exact Hid | split; [exact Hs | split; [exact Hc |]]].
    rewrite (GetById_allowed_outcome sort_Slice c env db id owner user sensor channels
               Hid Hg Hs Hc Ho Hau Hf) in Hret |- *.
    split; intros Hacc.
    + rewrite Hacc in Hret |- *. simpl in Hret |- *.
      destruct (RenderError c "sensor_detail"); [discriminate Hret |].
      eexists. reflexivity.
    + rewrite (eqb_string_neq _ _ Hacc) in Hret |- *. simpl in Hret |- *.
      destruct (JSONError c); [discriminate Hret | reflexivity].
Qed.

(** [Mem.alice] lists her sensors, asking for JSON. *)
Lemma response_format_follows_Accepts_witness :
  response (run (GetAll (Mem.request Mem.alice 7 "application/json") Mem.env) Mem.db) =
  Some (mkResponse StatusOK (JSONSensors [Sensor.mk 7 "thermometer" 100 10])).
Proof.
  destruct (proj1 (response_format_follows_Accepts Mem.Store insertion_sort
                     (Mem.request Mem.alice 7 "application/json") Mem.env Mem.db)
              eq_refl)
    as (user & sensors & Hau & Hs & _ & Hjson).
  simpl in Hau. injection Hau as <-.
  vm_compute in Hs. injection Hs as <-.
  apply Hjson. simpl. discriminate.
Defined.

(** C9.  Whenever [GetById] encodes a JSON body, it is outside the
    text/html branch, the status is 200 and the body holds the sensor
    together with the very list [GetSensorChannel] returned, whatever
    [sort.Slice] would do to it. *)
Theorem GetById_json_channels_as_fetched :
  forall (Store : Type) (sort_Slice : SliceSort)
         (c : Ctx) (env : Env Store) (db : Store)
         (status : Z) (v : Body) (e : option error),
    In (JSON status v, e) (trace (run (GetById sort_Slice c env) db)) ->
    exists id sensor channels,
      ParseId c = Ok id /\
      repository_GetById env db id = Ok sensor /\
      repository_GetSensorChannel env db id = Ok channels /\
      Accepted c <> "text/html" /\
      status = StatusOK /\
      v = JSONSensorWithChannel sensor channels.
Proof.
  intros Store sort_Slice c env db status v e Hin.
  destruct (GetById_inversion sort_Slice c env db) as
    (id & owner & user & sensor & channels & Hid & Hg & Hs & Hc & Ho & Hau & Hf).
  { right. exists (JSON status v), e. split; [exact Hin | reflexivity]. }
  rewrite (GetById_allowed_outcome sort_Slice c env db id owner user sensor channels
             Hid Hg Hs Hc Ho Hau Hf) in Hin.
  exists id, sensor, channels.
  destruct (String.eqb_spec (Accepted c) "text/html") as [Hacc | Hacc].
  - exfalso.
    destruct (RenderError c "sensor_detail"); simpl in Hin;
      repeat (destruct Hin as [Hin | Hin]; [discriminate Hin |]); exact Hin.
  - assert (Hbody : status = StatusOK /\ v = JSONSensorWithChannel sensor channels).
    { destruct (JSONError c); simpl in Hin;
        repeat (destruct Hin as [Hin | Hin]; [try discriminate Hin |]);
        try contradiction; inversion Hin; split; reflexivity. }
    destruct Hbody as [Hst Hv]. repeat split; assumption.
Qed.

(** [Mem.alice] fetches her sensor as JSON: the readings come in the stored
    order 30, 10, 20. *)
Lemma GetById_json_channels_as_fetched_witness :
  exists id sensor channels,
    ParseId (Mem.request Mem.alice 7 "application/json") = Ok id /\
    repository_GetById Mem.env Mem.db id = Ok sensor /\
    repository_GetSensorChannel Mem.env Mem.db id = Ok channels /\
    Accepted (Mem.request Mem.alice 7 "application/json") <> "text/html" /\
    200 = StatusOK /\
    JSONSensorWithChannel (Sensor.mk 7 "thermometer" 100 10)
      [Channel.mk 30 5; Channel.mk 10 6; Channel.mk 20 4] =
    JSONSensorWithChannel sensor channels.
Proof.
  apply (GetById_json_channels_as_fetched Mem.Store insertion_sort
           (Mem.request Mem.alice 7 "application/json") Mem.env Mem.db
           200
           (JSONSensorWithChannel (Sensor.mk 7 "thermometer" 100 10)
              [Channel.mk 30 5; Channel.mk 10 6; Channel.mk 20 4])
           None).
  simpl. tauto.
Defined.

(** ** Errors *)

(** Split on the next answer of a collaborator the handler waits for. *)
Ltac branch :=
  match goal with
  | |- context [match ?x with _ => _ end] =>
      lazymatch x with
      | context [match _ with _ => _ end] => fail
      | _ => destruct x eqn:?; simpl
      end
  end.

Lemma handed_on_split (tr : list Event) (r : option error) :
  handed_on tr r ->
  forall pre k e post,
    tr = (pre ++ (k, Some e) :: post)%list ->
    is_collaborator k = true ->
    r = Some e /\ Forall (fun ev => is_repository (fst ev) = false) post.
Proof.
  intros H pre. revert tr H.
  induction pre as [| [k0 e0] pre IH]; intros tr H k e post Heq Hk; subst tr; simpl in H.
  - destruct H as [H _]. apply H. exact Hk.
  - destruct e0 as [e0 |].
    + destruct H as [_ H]. apply (IH _ H k e post eq_refl Hk).
    + apply (IH _ H k e post eq_refl Hk).
Qed.

Ltac handed :=
  simpl;
  repeat match goal with
         | |- _ /\ _ => split
         | |- True => exact I
         | |- _ -> _ => intros _
         | |- Forall _ _ => constructor
         | |- _ = _ => reflexivity
         end.

Lemma handlers_hand_on {Store : Type} (sort_Slice : SliceSort) (op : Operation)
  (c : Ctx) (env : Env Store) (db : Store) :
  handed_on (trace (run (handler sort_Slice op c env) db))
            (returned (run (handler sort_Slice op c env) db)).
Proof.
  destruct op; unfold_handler; simpl; repeat branch; handed.
Qed.

(** C6.  In each of the six handlers, an error returned by the validator
    (body, id, authentication), by [Begin] or by a repository is the very
    value the handler returns, and no repository is called after it. *)
Theorem collaborator_errors_returned_unchanged :
  forall (Store : Type) (sort_Slice : SliceSort) (op : Operation)
         (c : Ctx) (env : Env Store) (db : Store)
         (pre post : list Event) (k : Call) (e : error),
    trace (run (handler sort_Slice op c env) db) = (pre ++ (k, Some e) :: post)%list ->
    is_collaborator k = true ->
    returned (run (handler sort_Slice op c env) db) = Some e /\
    Forall (fun ev => is_repository (fst ev) = false) post.
Proof.
  intros Store sort_Slice op c env db pre post k e Htr Hk.
  exact (handed_on_split _ _ (handlers_hand_on sort_Slice op c env db) pre k e post Htr Hk).
Qed.

(** An [Update] of a sensor that does not exist: the repository's error
    comes back as it is. *)
Lemma collaborator_errors_returned_unchanged_witness :
  returned (run (handler insertion_sort OpUpdate (Mem.request Mem.alice 8 "text/html")
                   Mem.env) Mem.db) = Some Mem.NotFound /\
  Forall (fun ev => is_repository (fst ev) = false) [(Rollback, @None error)].
Proof.
  apply (collaborator_errors_returned_unchanged Mem.Store insertion_sort OpUpdate
           (Mem.request Mem.alice 8 "text/html") Mem.env Mem.db
           [(ParseIdFromUrlParameter, None); (ParseBody, None); (Begin, None)]
           [(Rollback, None)] (Sensor_GetById 8) Mem.NotFound).
  - reflexivity.
  - reflexivity.
Defined.

(** ** Transactions *)

Ltac absent :=
  let H := fresh in
  intros [? H]; simpl in H;
  repeat (destruct H as [H | H]; [discriminate H |]); exact H.

Ltac holds :=
  first [ reflexivity
        | solve [unfold began; simpl; tauto]
        | solve [unfold called; simpl; exists None; simpl; tauto] ].

Ltac refuted H :=
  exfalso; revert H;
  first [ solve [absent]
        | solve [unfold began; simpl;
                 let H' := fresh in
                 intros H';
                 repeat (destruct H' as [H' | H']; [discriminate H' |]);
                 exact H'] ].

Ltac settled :=
  simpl;
  repeat match goal with
         | |- _ /\ _ => split
         | |- _ <-> _ => split
         | |- Some _ <> None -> _ => intros _
         | |- None <> None -> _ =>
             let H := fresh in intros H; exfalso; apply H; reflexivity
         | |- ~ called _ _ => absent
         | |- began _ -> _ =>
             let H := fresh in intros H; first [solve [holds] | refuted H]
         | |- called _ _ -> _ =>
             let H := fresh in intros H; first [solve [holds] | refuted H]
         | |- _ = _ => reflexivity
         end.

(** C7, as the code has it.  A [Create], [Update] or [Delete] request that
    ends in an error is never committed, none of its repository writes
    reaches the database, and the database is as it was.  The deferred
    [CommitOrRollback] rolls the transaction back exactly when one was
    opened: an error of body or id validation, or of [Begin] itself, comes
    before there is a transaction, and nothing is rolled back then. *)
Theorem error_leaves_database_unchanged :
  forall (Store : Type) (sort_Slice : SliceSort) (op : Operation)
         (c : Ctx) (env : Env Store) (db : Store),
    is_writing op = true ->
    returned (run (handler sort_Slice op c env) db) <> None ->
    let o := run (handler sort_Slice op c env) db in
    ~ called Commit o /\
    database o = db /\
    (began o <-> called Rollback o).
Proof.
  intros Store sort_Slice op c env db Hop.
  destruct op; try discriminate Hop; clear Hop;
    unfold run, handler, Create, Update, Delete,
           InTx, bind, call, query, exec, fail, ret,
           Status_SendString, write, log;
    simpl; repeat branch; settled.
Qed.

(** [Mem.bob] tries to rename the sensor of user 1: the transaction is
    opened and rolled back. *)
Lemma error_leaves_database_unchanged_witness :
  let o := run (handler insertion_sort OpUpdate (Mem.request Mem.bob 7 "text/html")
                  Mem.env) Mem.db in
  ~ called Commit o /\ database o = Mem.db /\ (began o <-> called Rollback o).
Proof.
  apply (error_leaves_database_unchanged Mem.Store insertion_sort OpUpdate
           (Mem.request Mem.bob 7 "text/html") Mem.env Mem.db eq_refl).
  simpl. discriminate.
Defined.

(** The request ends in an error before [Begin] and before the [defer]:
    no transaction exists and no rollback is made, so the reading of C7 in
    which every error is rolled back by the deferred call fails here. *)
Lemma validation_error_is_not_rolled_back :
  run (Create Mem.malformed Mem.env) Mem.db =
    mkOutcome (Some (NewError 400 "invalid body")) None
      [(ParseBody, Some (NewError 400 "invalid body"))] Mem.db /\
  ~ rolled_back_on_error Mem.db (run (Create Mem.malformed Mem.env) Mem.db).
Proof.
  split; [reflexivity |].
  intros H. destruct H as [Hroll _]; [simpl; discriminate |].
  revert Hroll. absent.
Qed.

(** ** UpdateForm *)

(** [UpdateForm] never asks who the requester is. *)
Lemma UpdateForm_ignores_requester {Store : Type} (c : Ctx) (env : Env Store) (db : Store)
  (a : Result User.t) :
  run (UpdateForm (with_Authentication c a) env) db = run (UpdateForm c env) db.
Proof. reflexivity. Qed.

(** C3.  [Mem.bob], who is neither the owner of sensor 7 nor an admin, and
    whom the owner-or-admin test of the other handlers turns away, asks for
    the edit form of that sensor: [UpdateForm] returns nil and renders the
    form filled in with the sensor, without calling [GetAuthentication] or
    [GetIdUserWhoOwnSensorById]. *)
Theorem UpdateForm_serves_any_requester :
  let o := run (UpdateForm (Mem.request Mem.bob 7 "text/html") Mem.env) Mem.db in
  repository_GetIdUserWhoOwnSensorById Mem.env Mem.db 7 = Ok 1 /\
  forbidden 1 Mem.bob = true /\
  returned o = None /\
  response o =
    Some (mkResponse 200
            (HTML "sensor_form"
               [("title", BString "Edit Sensor");
                ("sensor", BSensor (Sensor.mk 7 "thermometer" 100 10));
                ("edit", BBool true)]
               "layouts/main")) /\
  map fst (trace o) =
    [ParseIdFromUrlParameter; Begin; Sensor_GetById 7;
     Render "sensor_form"
       [("title", BString "Edit Sensor");
        ("sensor", BSensor (Sensor.mk 7 "thermometer" 100 10));
        ("edit", BBool true)]
       "layouts/main";
     Commit].
Proof.
  repeat split.
Qed.

(** * Further properties of the handlers *)

(** ** What the reading handlers never do *)

Ltac no_write :=
  simpl;
  repeat match goal with
         | |- _ /\ _ => split
         | |- ~ mutates _ => no_mutation
         | |- ~ began _ =>
             unfold began; simpl;
             let H := fresh in
             intros H; repeat (destruct H as [H | H]; [discriminate H |]); exact H
         | |- _ = _ => reflexivity
         end.

(** [GetAll], [GetById] and [UpdateForm] make no repository write and
    leave the database as it was, whatever the request and whether they
    fail or succeed; [CreateForm] in addition opens no transaction. *)
Theorem reading_handlers_never_write :
  forall (Store : Type) (sort_Slice : SliceSort) (op : Operation)
         (c : Ctx) (env : Env Store) (db : Store),
    (is_writing op = false ->
     ~ mutates (run (handler sort_Slice op c env) db) /\
     database (run (handler sort_Slice op c env) db) = db) /\
    (~ mutates (run (CreateForm c) db) /\
     ~ began (run (CreateForm c) db) /\
     database (run (CreateForm c) db) = db).
Proof.
  intros Store sort_Slice op c env db. split.
  - intros Hop.
    destruct op; try discriminate Hop; clear Hop;
      unfold_handler; simpl; repeat branch; no_write.
  - unfold run, CreateForm, c_Render, write, log. simpl. branch; no_write.
Qed.

(** [Mem.bob] asks for the edit form of a sensor: nothing is written. *)
Lemma reading_handlers_never_write_witness :
  database (run (handler insertion_sort OpUpdateForm
                   (Mem.request Mem.bob 7 "text/html") Mem.env) Mem.db) = Mem.db.
Proof.
  apply (proj1 (reading_handlers_never_write Mem.Store insertion_sort OpUpdateForm
                  (Mem.request Mem.bob 7 "text/html") Mem.env Mem.db)).
  reflexivity.
Defined.

(** ** The transaction brackets the repository calls *)

Ltac shaped :=
  simpl;
  repeat match goal with
         | |- _ /\ _ => split
         | |- True => exact I
         | |- _ = _ => reflexivity
         end.

Lemma inside_tx_last (tr : list Event) :
  inside_tx tr ->
  exists mid close, tr = (mid ++ [(close, None)])%list /\ is_closing close = true.
Proof.
  induction tr as [| [k e] rest IH]; simpl; [contradiction |].
  destruct rest as [| ev rest'].
  - intros [Hk He]. subst e. exists [], k. split; [reflexivity | exact Hk].
  - intros [_ Hrest]. destruct (IH Hrest) as (mid & close & Heq & Hc).
    exists ((k, e) :: mid)%list, close. rewrite Heq. split; [reflexivity | exact Hc].
Qed.

Lemma inside_tx_split (tr : list Event) :
  inside_tx tr ->
  forall pre k e post,
    tr = (pre ++ (k, e) :: post)%list ->
    is_tx k = false ->
    exists mid close, post = (mid ++ [(close, None)])%list /\ is_closing close = true.
Proof.
  intros H pre. revert tr H.
  induction pre as [| [k0 e0] pre IH]; intros tr H k e post Heq Hk; subst tr.
  - destruct post as [| ev post']; simpl in H.
    + destruct H as [Hc _]. destruct k; discriminate.
    + destruct H as [_ H]. apply inside_tx_last. exact H.
  - simpl in H.
    destruct (pre ++ (k, e) :: post)%list as [| ev rest] eqn:Hrest.
    + destruct pre; discriminate Hrest.
    + destruct H as [_ H]. apply (IH _ H k e post (eq_sym Hrest) Hk).
Qed.

Lemma bracketed_split (tr : list Event) :
  bracketed tr ->
  forall pre k e post,
    tr = (pre ++ (k, e) :: post)%list ->
    is_repository k = true \/ is_response k = true ->
    In (Begin, None) pre /\
    exists mid close, post = (mid ++ [(close, None)])%list /\ is_closing close = true.
Proof.
  intros H pre. revert tr H.
  induction pre as [| [k0 e0] pre IH]; intros tr H k e post Heq Hk; subst tr.
  - exfalso. simpl in H.
    destruct k; simpl in Hk; destruct Hk as [Hk | Hk]; try discriminate Hk;
      destruct H as [H _]; discriminate H.
  - assert (Htx : is_tx k = false).
    { destruct k; simpl in Hk; destruct Hk as [Hk | Hk];
        try discriminate Hk; reflexivity. }
    simpl in H.
    destruct k0;
      try (destruct H as [_ H];
           destruct (IH _ H k e post eq_refl Hk) as [Hin Hpost];
           split; [right; exact Hin | exact Hpost]).
    destruct e0 as [e0 |].
    + destruct pre; discriminate H.
    + split; [left; reflexivity |].
      apply (inside_tx_split _ H pre k e post eq_refl Htx).
Qed.

(** In each of the six handlers the trace has the shape [bracketed]:
    before [Begin] only the validator is called; when [Begin] fails the
    handler stops there; when it succeeds, neither a second [Begin] nor a
    closing call occurs until the deferred call closes the transaction,
    once, as the very last call.  So every repository call and every write
    of the response comes after a successful [Begin] and is followed by the
    closing call, which ends the trace. *)
Theorem transaction_brackets_the_calls :
  forall (Store : Type) (sort_Slice : SliceSort) (op : Operation)
         (c : Ctx) (env : Env Store) (db : Store),
    bracketed (trace (run (handler sort_Slice op c env) db)) /\
    forall (pre post : list Event) (k : Call) (e : option error),
      trace (run (handler sort_Slice op c env) db) = (pre ++ (k, e) :: post)%list ->
      is_repository k = true \/ is_response k = true ->
      In (Begin, None) pre /\
      exists mid close, post = (mid ++ [(close, None)])%list /\ is_closing close = true.
Proof.
  intros Store sort_Slice op c env db.
  assert (H : bracketed (trace (run (handler sort_Slice op c env) db))).
  { destruct op; unfold_handler; simpl; repeat branch; shaped. }
  split; [exact H |].
  intros pre post k e Heq Hk. exact (bracketed_split _ H pre k e post Heq Hk).
Qed.

(** The lookup of the owner in a [Delete] by [Mem.bob]. *)
Lemma transaction_brackets_the_calls_witness :
  In (Begin, @None error) [(ParseIdFromUrlParameter, None); (Begin, None)] /\
  exists mid close,
    [(GetAuthentication, @None error); (Rollback, None)] = (mid ++ [(close, None)])%list /\
    is_closing close = true.
Proof.
  apply (proj2 (transaction_brackets_the_calls Mem.Store insertion_sort OpDelete
                  (Mem.request Mem.bob 7 "text/html") Mem.env Mem.db)
           [(ParseIdFromUrlParameter, None); (Begin, None)]
           [(GetAuthentication, None); (Rollback, None)]
           (Sensor_GetIdUserWhoOwnSensorById 7) None).
  - reflexivity.
  - left. reflexivity.
Defined.

(** ** Authentication *)




(** ** Where errors and responses come from *)

Ltac found :=
  repeat first [ apply Exists_cons_hd; reflexivity | apply Exists_cons_tl ].

(** The handlers make up two errors of their own and no other: every error
    a handler returns was returned to it by one of the calls it made, or is
    the error 400 of [Create] for a board that is no sensor board, or is an
    error 403 of one of the handlers that test ownership. *)
Theorem returned_error_origin :
  forall (Store : Type) (sort_Slice : SliceSort) (op : Operation)
         (c : Ctx) (env : Env Store) (db : Store) (e : error),
    returned (run (handler sort_Slice op c env) db) = Some e ->
    Exists (fun ev => snd ev = Some e) (trace (run (handler sort_Slice op c env) db)) \/
    (op = OpCreate /\
     e = NewError 400 "Hardware type not match, type should be sensor") \/
    ((is_writing op = true \/ op = OpGetById) /\ exists message, e = NewError 403 message).
Proof.
  intros Store sort_Slice op c env db e.
  destruct op; unfold_handler; simpl; repeat branch; simpl;
    let H := fresh in
    intros H;
    first [ discriminate H
          | injection H as <-;
            first [ left; solve [found]
                  | right; left; split; reflexivity
                  | right; right; split;
                    [first [left; reflexivity | right; reflexivity]
                    | eexists; reflexivity] ] ].
Qed.

(** [Mem.bob] tries to delete the sensor of user 1: the error 403 is the
    handler's own. *)
Lemma returned_error_origin_witness :
  let o := run (handler insertion_sort OpDelete (Mem.request Mem.bob 7 "text/html")
                  Mem.env) Mem.db in
  Exists (fun ev => snd ev = Some (NewError 403 "You can't delete another user's sensor"))
    (trace o) \/
  (OpDelete = OpCreate /\
   NewError 403 "You can't delete another user's sensor" =
   NewError 400 "Hardware type not match, type should be sensor") \/
  ((is_writing OpDelete = true \/ OpDelete = OpGetById) /\
   exists message, NewError 403 "You can't delete another user's sensor" = NewError 403 message).
Proof.
  intros o.
  apply (returned_error_origin Mem.Store insertion_sort OpDelete
           (Mem.request Mem.bob 7 "text/html") Mem.env Mem.db).
  reflexivity.
Defined.

Ltac answered :=
  simpl;
  repeat match goal with
         | |- _ /\ _ => split
         | |- _ <-> _ => split
         | |- forall _, _ => intro
         | H : Some _ = None |- _ => discriminate H
         | H : None = Some _ |- _ => discriminate H
         | H : None <> None |- _ => exfalso; apply H; reflexivity
         | H : Some ?r = Some _ |- _ => injection H as <-
         | |- Some _ <> None => discriminate
         | |- _ = _ => reflexivity
         end.

(** A handler returns nil exactly when it has written a response, and the
    status of that response is 201 for [Create] and 200 for the five other
    handlers. *)
Theorem response_iff_success :
  forall (Store : Type) (sort_Slice : SliceSort) (op : Operation)
         (c : Ctx) (env : Env Store) (db : Store),
    let o := run (handler sort_Slice op c env) db in
    (returned o = None <-> response o <> None) /\
    (forall r, response o = Some r -> status r = success_status op).
Proof.
  intros Store sort_Slice op c env db.
  destruct op; unfold_handler; simpl; repeat branch; answered.
Qed.

(** ** Repository writes *)

Lemma is_mutation_is_repository (k : Call) :
  is_mutation k = true -> is_repository k = true.
Proof. destruct k; simpl; intros H; try discriminate H; reflexivity. Qed.

Lemma writes_last_split (tr : list Event) :
  writes_last tr ->
  forall pre k e post,
    tr = (pre ++ (k, e) :: post)%list ->
    is_mutation k = true ->
    Forall (fun ev => is_mutation (fst ev) = false) pre /\
    Forall (fun ev => is_repository (fst ev) = false) post.
Proof.
  intros H pre. revert tr H.
  induction pre as [| [k0 e0] pre IH]; intros tr H k e post Heq Hk; subst tr; simpl in H.
  - rewrite Hk in H. split; [constructor | exact H].
  - destruct (is_mutation k0) eqn:Hk0.
    + exfalso. apply Forall_app in H. destruct H as [_ H].
      apply Forall_inv in H. simpl in H.
      rewrite (is_mutation_is_repository k Hk) in H. discriminate H.
    + destruct (IH _ H k e post eq_refl Hk) as [Hpre Hpost].
      split; [constructor; [exact Hk0 | exact Hpre] | exact Hpost].
Qed.

Ltac last_write :=
  simpl;
  repeat match goal with
         | |- True => exact I
         | |- Forall _ _ => constructor
         | |- _ = _ => reflexivity
         end.

(** A request makes at most one repository write, and it is the last
    repository call of the request: no write comes before it and no
    repository is called after it. *)
Theorem single_write_after_all_reads :
  forall (Store : Type) (sort_Slice : SliceSort) (op : Operation)
         (c : Ctx) (env : Env Store) (db : Store)
         (pre post : list Event) (k : Call) (e : option error),
    trace (run (handler sort_Slice op c env) db) = (pre ++ (k, e) :: post)%list ->
    is_mutation k = true ->
    Forall (fun ev => is_mutation (fst ev) = false) pre /\
    Forall (fun ev => is_repository (fst ev) = false) post.
Proof.
  intros Store sort_Slice op c env db pre post k e Heq Hk.
  assert (H : writes_last (trace (run (handler sort_Slice op c env) db))).
  { destruct op; unfold_handler; simpl; repeat branch; last_write. }
  exact (writes_last_split _ H pre k e post Heq Hk).
Qed.

(** The write of [Mem.alice]'s [Update]. *)
Lemma single_write_after_all_reads_witness :
  Forall (fun ev => is_mutation (fst ev) = false)
    [(ParseIdFromUrlParameter, @None error); (ParseBody, None); (Begin, None);
     (Sensor_GetById 7, None); (Sensor_GetIdUserWhoOwnSensorById 7, None);
     (GetAuthentication, None)] /\
  Forall (fun ev => is_repository (fst ev) = false)
    [(SendString 200 "Success edit sensor", @None error); (Commit, None)].
Proof.
  apply (single_write_after_all_reads Mem.Store insertion_sort OpUpdate
           (Mem.request Mem.alice 7 "text/html") Mem.env Mem.db
           [(ParseIdFromUrlParameter, None); (ParseBody, None); (Begin, None);
            (Sensor_GetById 7, None); (Sensor_GetIdUserWhoOwnSensorById 7, None);
            (GetAuthentication, None)]
           [(SendString 200 "Success edit sensor", None); (Commit, None)]
           (Sensor_Update (Sensor.mk 7 "thermometer" 100 10)
              (SensorUpdate.mk "hygrometer" 100 10))
           None).
  - reflexivity.
  - reflexivity.
Defined.

(** [Create], [Update] and [Delete] return nil only after their repository
    write was made and returned nil, and then the response is the
    confirmation text of the handler with its success status. *)
Theorem success_means_written :
  forall (Store : Type) (sort_Slice : SliceSort) (op : Operation)
         (c : Ctx) (env : Env Store) (db : Store),
    is_writing op = true ->
    returned (run (handler sort_Slice op c env) db) = None ->
    Exists (fun ev => is_mutation (fst ev) = true /\ snd ev = None)
      (trace (run (handler sort_Slice op c env) db)) /\
    exists text,
      response (run (handler sort_Slice op c env) db) =
        Some (mkResponse (success_status op) (Text text)).
Proof.
  intros Store sort_Slice op c env db Hop.
  destruct op; try discriminate Hop; clear Hop;
    unfold_handler; simpl; repeat branch; simpl;
    let H := fresh in
    intros H;
    first [ discriminate H
          | split;
            [ repeat first [ apply Exists_cons_hd; split; reflexivity
                           | apply Exists_cons_tl ]
            | eexists; reflexivity ] ].
Qed.

(** The admin deletes sensor 7. *)
Lemma success_means_written_witness :
  let o := run (handler insertion_sort OpDelete (Mem.request Mem.root 7 "text/html")
                  Mem.env) Mem.db in
  Exists (fun ev => is_mutation (fst ev) = true /\ snd ev = None) (trace o) /\
  exists text,
    response o = Some (mkResponse (success_status OpDelete) (Text text)).
Proof.
  intros o.
  apply (success_means_written Mem.Store insertion_sort OpDelete
           (Mem.request Mem.root 7 "text/html") Mem.env Mem.db).
  - reflexivity.
  - reflexivity.
Defined.

(** ** What the repositories are asked *)

Ltac each_call tac :=
  simpl;
  repeat match goal with
         | |- Forall _ _ => constructor
         | |- _ -> _ =>
             let H := fresh in
             intros H; simpl in H; first [discriminate H | clear H]
         end;
  tac.

(** The handlers that take the sensor id from the URL ask the repository
    about that sensor only: every repository call of [GetById],
    [UpdateForm], [Update] and [Delete] is a read or a deletion of the
    parsed id, or the update of the sensor fetched under that id with the
    parsed body. *)
Theorem repository_asked_about_the_id_only :
  forall (Store : Type) (sort_Slice : SliceSort) (op : Operation)
         (c : Ctx) (env : Env Store) (db : Store),
    takes_id op = true ->
    Forall (fun ev =>
              is_repository (fst ev) = true ->
              exists id, ParseId c = Ok id /\ concerns c env db id (fst ev))
      (trace (run (handler sort_Slice op c env) db)).
Proof.
  intros Store sort_Slice op c env db Hop.
  destruct op; try discriminate Hop; clear Hop;
    unfold_handler; simpl; repeat branch;
    each_call ltac:(try (eexists; split; [reflexivity | simpl; auto])).
Qed.

(** An [Update] by [Mem.alice]. *)
Lemma repository_asked_about_the_id_only_witness :
  Forall (fun ev =>
            is_repository (fst ev) = true ->
            exists id, ParseId (Mem.request Mem.alice 7 "text/html") = Ok id /\
                       concerns (Mem.request Mem.alice 7 "text/html") Mem.env Mem.db id
                         (fst ev))
    (trace (run (handler insertion_sort OpUpdate (Mem.request Mem.alice 7 "text/html")
                   Mem.env) Mem.db)).
Proof.
  apply (repository_asked_about_the_id_only Mem.Store insertion_sort OpUpdate
           (Mem.request Mem.alice 7 "text/html") Mem.env Mem.db).
  reflexivity.
Defined.

(** [Create] asks the repositories about its body only: the node and the
    hardware the body names, and the insertion of the body itself; and
    [GetAll] makes no repository call but [GetAll] for the authenticated
    user. *)
Theorem repository_asked_for_the_request_only :
  forall (Store : Type) (c : Ctx) (env : Env Store) (db : Store),
    Forall (fun ev =>
              is_repository (fst ev) = true ->
              exists payload, ParseBody_SensorCreate c = Ok payload /\
                              serves payload (fst ev))
      (trace (run (Create c env) db)) /\
    Forall (fun ev =>
              is_repository (fst ev) = true ->
              exists user, Authentication c = Ok user /\ fst ev = Sensor_GetAll user)
      (trace (run (GetAll c env) db)).
Proof.
  intros Store c env db. split;
    unfold_handler; simpl; repeat branch;
    each_call ltac:(try (eexists; split; [reflexivity | simpl; auto])).
Qed.

(** ** Lookups come before authentication *)

(** In the handlers that take an id, the first repository lookup is made
    before the client is authenticated: when it fails (say, because there
    is no such sensor), its error is what the client gets, and the outcome
    is the same whatever the authentication would have said. *)
Theorem lookup_error_precedes_authentication :
  forall (Store : Type) (sort_Slice : SliceSort) (op : Operation)
         (c : Ctx) (env : Env Store) (db : Store) (id : Z) (e : error)
         (a : Result User.t),
    ParseId c = Ok id ->
    (op = OpUpdate -> exists payload, ParseBody_SensorUpdate c = Ok payload) ->
    db_Begin env = None ->
    first_lookup_error op env db id = Some e ->
    returned (run (handler sort_Slice op c env) db) = Some e /\
    ~ called GetAuthentication (run (handler sort_Slice op c env) db) /\
    run (handler sort_Slice op (with_Authentication c a) env) db =
    run (handler sort_Slice op c env) db.
Proof.
  intros Store sort_Slice op c env db id e a Hid Hbody Hg Hfirst.
  destruct op; simpl in Hfirst; try discriminate Hfirst.
  - destruct (repository_GetById env db id) as [s | e'] eqn:Hs; [discriminate Hfirst |].
    injection Hfirst as ->.
    unfold_handler. simpl. rewrite Hid, Hg. simpl. rewrite Hs. simpl.
    repeat split. absent.
  - destruct (repository_GetById env db id) as [s | e'] eqn:Hs; [discriminate Hfirst |].
    injection Hfirst as ->.
    unfold_handler. simpl. rewrite Hid, Hg. simpl. rewrite Hs. simpl.
    repeat split. absent.
  - destruct (repository_GetById env db id) as [s | e'] eqn:Hs; [discriminate Hfirst |].
    injection Hfirst as ->.
    destruct (Hbody eq_refl) as [payload Hp].
    unfold_handler. simpl. rewrite Hid, Hp, Hg. simpl. rewrite Hs. simpl.
    repeat split. absent.
  - destruct (repository_GetIdUserWhoOwnSensorById env db id) as [o | e'] eqn:Ho;
      [discriminate Hfirst |].
    injection Hfirst as ->.
    unfold_handler. simpl. rewrite Hid, Hg. simpl. rewrite Ho. simpl.
    repeat split. absent.
Qed.

(** Sensor 8 does not exist: an anonymous client learns so from [GetById]. *)
Lemma lookup_error_precedes_authentication_witness :
  let c := with_Authentication (Mem.request Mem.alice 8 "application/json")
             (Err (NewError 401 "Unauthorized")) in
  returned (run (handler insertion_sort OpGetById c Mem.env) Mem.db) = Some Mem.NotFound.
Proof.
  intros c.
  apply (lookup_error_precedes_authentication Mem.Store insertion_sort OpGetById
           c Mem.env Mem.db 8 Mem.NotFound (Ok Mem.alice)).
  - reflexivity.
  - discriminate.
  - reflexivity.
  - reflexivity.
Defined.

(** ** The two views of a sensor *)

(** The page and the JSON body of [GetById] show the same sensor and the
    same readings: for two successful requests that differ in the
    negotiated format only, the readings on the page are a rearrangement of
    the readings in the JSON body. *)
Theorem html_and_json_show_the_same_readings :
  forall (Store : Type) (sort_Slice : SliceSort),
    sort_contract sort_Slice ->
    forall (c1 c2 : Ctx) (env : Env Store) (db : Store),
      ParseId c1 = ParseId c2 ->
      Accepted c1 = "text/html" ->
      Accepted c2 <> "text/html" ->
      returned (run (GetById sort_Slice c1 env) db) = None ->
      returned (run (GetById sort_Slice c2 env) db) = None ->
      exists sensor shown fetched,
        response (run (GetById sort_Slice c1 env) db) =
          Some (mkResponse 200
                  (HTML "sensor_detail" (detail_bindings sensor shown) "layouts/main")) /\
        response (run (GetById sort_Slice c2 env) db) =
          Some (mkResponse 200 (JSONSensorWithChannel sensor fetched)) /\
        Permutation fetched shown /\
        by_time shown.
Proof.
  intros Store sort_Slice Hsort c1 c2 env db Hsame Hhtml Hjson Hret1 Hret2.
  destruct (GetById_inversion sort_Slice c1 env db (or_introl Hret1)) as
    (id & owner & user & sensor & channels & Hid & Hg & Hs & Hc & Ho & Hau & Hf).
  destruct (GetById_inversion sort_Slice c2 env db (or_introl Hret2)) as
    (id2 & owner2 & user2 & sensor2 & channels2 & Hid2 & _ & Hs2 & Hc2 & Ho2 & Hau2 & Hf2).
  assert (Heq : id2 = id) by congruence. subst id2.
  assert (sensor2 = sensor) by congruence. subst sensor2.
  assert (channels2 = channels) by congruence. subst channels2.
  rewrite (GetById_allowed_outcome sort_Slice c1 env db id owner user sensor channels
             Hid Hg Hs Hc Ho Hau Hf) in Hret1 |- *.
  rewrite (GetById_allowed_outcome sort_Slice c2 env db id owner2 user2 sensor channels
             Hid2 Hg Hs2 Hc2 Ho2 Hau2 Hf2) in Hret2 |- *.
  rewrite Hhtml in Hret1 |- *. rewrite (eqb_string_neq _ _ Hjson) in Hret2 |- *.
  simpl in Hret1, Hret2 |- *.
  destruct (RenderError c1 "sensor_detail"); [discriminate Hret1 |].
  destruct (JSONError c2); [discriminate Hret2 |].
  destruct (Hsort Channel.t
              (fun ci cj => Before (Channel.Time ci) (Channel.Time cj)) channels)
    as [Hperm Hasc].
  exists sensor,
    (sort_Slice Channel.t
       (fun ci cj => Before (Channel.Time ci) (Channel.Time cj)) channels),
    channels.
  repeat split; try assumption.
  apply by_time_of_ascending. apply Hasc. apply Before_strict_weak_order.
Qed.

(** [Mem.alice] looks at her sensor both ways. *)
Lemma html_and_json_show_the_same_readings_witness :
  exists sensor shown fetched,
    response (run (GetById insertion_sort (Mem.request Mem.alice 7 "text/html") Mem.env)
                Mem.db) =
      Some (mkResponse 200
              (HTML "sensor_detail" (detail_bindings sensor shown) "layouts/main")) /\
    response (run (GetById insertion_sort (Mem.request Mem.alice 7 "application/json")
                     Mem.env) Mem.db) =
      Some (mkResponse 200 (JSONSensorWithChannel sensor fetched)) /\
    Permutation fetched shown /\
    by_time shown.
Proof.
  apply (html_and_json_show_the_same_readings Mem.Store insertion_sort
           insertion_sort_contract
           (Mem.request Mem.alice 7 "text/html")
           (Mem.request Mem.alice 7 "application/json") Mem.env Mem.db).
  - reflexivity.
  - reflexivity.
  - simpl. discriminate.
  - reflexivity.
  - reflexivity.
Defined.

(** ** The hardware type [Create] accepts *)

Lemma every_byte (c : ascii) : In c (map ascii_of_nat (seq 0 256)).
Proof.
  rewrite <- (ascii_nat_embedding c). apply in_map. apply in_seq.
  split; [apply Nat.le_0_l | apply nat_ascii_bounded].
Qed.

Lemma lower_byte_inverse (c l : ascii) :
  lower_byte l = l ->
  (lower_byte c = l <-> c = l \/ c = upper_byte l).
Proof.
  assert (H : forall c l,
             implb (Ascii.eqb (lower_byte l) l)
                   (Bool.eqb (Ascii.eqb (lower_byte c) l)
                             (Ascii.eqb c l || Ascii.eqb c (upper_byte l))) = true).
  { assert (Hall :
              forallb
                (fun c0 =>
                   forallb
                     (fun l0 =>
                        implb (Ascii.eqb (lower_byte l0) l0)
                          (Bool.eqb (Ascii.eqb (lower_byte c0) l0)
                             (Ascii.eqb c0 l0 || Ascii.eqb c0 (upper_byte l0))))
                     (map ascii_of_nat (seq 0 256)))
                (map ascii_of_nat (seq 0 256)) = true)
      by (vm_compute; reflexivity).
    intros c0 l0. rewrite forallb_forall in Hall.
    pose proof (Hall c0 (every_byte c0)) as Hc0.
    rewrite forallb_forall in Hc0. exact (Hc0 l0 (every_byte l0)). }
  intros Hl. specialize (H c l).
  apply Ascii.eqb_eq in Hl. rewrite Hl in H. simpl in H.
  apply Bool.eqb_prop in H. split.
  - intros Hc. apply Ascii.eqb_eq in Hc. rewrite Hc in H. symmetry in H.
    apply orb_true_iff in H. destruct H as [H | H]; apply Ascii.eqb_eq in H; auto.
  - intros Hc. apply Ascii.eqb_eq. rewrite H. apply orb_true_iff.
    destruct Hc as [Hc | Hc]; [left | right]; apply Ascii.eqb_eq; exact Hc.
Qed.

(** For a text [t] without capitals, the strings that [ToLower] sends to
    [t] are the spellings of [t] in small and capital letters. *)
Lemma ToLower_inverse (t : string) :
  ToLower t = t ->
  forall s, ToLower s = t <-> In s (case_variants t).
Proof.
  induction t as [| l r IH]; intros Ht s.
  - destruct s; simpl; split; intros H.
    + left. reflexivity.
    + reflexivity.
    + discriminate H.
    + destruct H as [H | H]; [discriminate H | contradiction].
  - simpl in Ht. injection Ht as Hl Hr.
    destruct s as [| c s']; simpl.
    + split; [discriminate |].
      intros H. apply in_app_or in H.
      destruct H as [H | H]; apply in_map_iff in H; destruct H as (x & Hx & _);
        discriminate Hx.
    + split.
      * intros H. injection H as Hc Hs.
        apply (IH Hr) in Hs. apply (lower_byte_inverse c l Hl) in Hc.
        apply in_or_app. destruct Hc as [-> | ->]; [left | right]; apply in_map; exact Hs.
      * intros H. apply in_app_or in H.
        destruct H as [H | H]; apply in_map_iff in H; destruct H as (x & Hx & Hin);
          injection Hx as <- <-; apply (IH Hr) in Hin; rewrite Hin; f_equal;
          apply (lower_byte_inverse _ l Hl); auto.
Qed.

(** A [Create] request whose body parses and whose node and hardware are
    found gets past the hardware-type test, that is as far as
    authentication, exactly when the type of the hardware is "sensor"
    spelled in small or capital letters, in any mixture; in every other
    case the request ends with the error 400 before authentication. *)
Theorem Create_accepts_any_letter_case :
  forall (Store : Type) (c : Ctx) (env : Env Store) (db : Store)
         (payload : SensorCreate.t) (node : Node.t) (hardware : Hardware.t),
    ParseBody_SensorCreate c = Ok payload ->
    db_Begin env = None ->
    nodeRepository_GetById env db (SensorCreate.IdNode payload) = Ok node ->
    hardwareRepository_GetById env db (SensorCreate.IdHardware payload) = Ok hardware ->
    (called GetAuthentication (run (Create c env) db) <->
     In (Hardware.Type_ hardware) (case_variants "sensor")) /\
    (~ In (Hardware.Type_ hardware) (case_variants "sensor") ->
     returned (run (Create c env) db) =
     Some (NewError 400 "Hardware type not match, type should be sensor")).
Proof.
  intros Store c env db payload node hardware Hb Hg Hn Hh.
  pose proof (ToLower_inverse "sensor" eq_refl (Hardware.Type_ hardware)) as Hiff.
  destruct (string_dec (ToLower (Hardware.Type_ hardware)) "sensor") as [Hty | Hty].
  - split.
    + split; [intros _; apply Hiff; exact Hty |].
      intros _. evaluate. rewrite Hty. simpl.
      destruct (Authentication c) as [user | e]; simpl.
      * exists None. repeat branch; simpl; tauto.
      * exists (Some e). simpl. tauto.
    + intros Hnot. exfalso. apply Hnot. apply Hiff. exact Hty.
  - rewrite (Create_wrong_type _ _ _ _ _ _ Hb Hg Hn Hh Hty). split.
    + split.
      * intros Hcall. exfalso. revert Hcall. absent.
      * intros Hin. exfalso. apply Hty. apply Hiff. exact Hin.
    + intros _. reflexivity.
Qed.

(** The board of type "Sensor" in the in-memory database. *)
Lemma Create_accepts_any_letter_case_witness :
  called GetAuthentication
    (run (Create (Mem.request Mem.alice 7 "application/json") Mem.env) Mem.db) <->
  In "Sensor" (case_variants "sensor").
Proof.
  apply (Create_accepts_any_letter_case Mem.Store
           (Mem.request Mem.alice 7 "application/json") Mem.env Mem.db
           (SensorCreate.mk "barometer" 100 10) (Node.mk 10 1) (Hardware.mk 100 "Sensor")
           eq_refl eq_refl eq_refl eq_refl).
Defined.

(** ** The confirmation of Delete *)

Lemma Sprintf_d_injective (m n : Z) : Sprintf_d m = Sprintf_d n -> m = n.
Proof.
  unfold Sprintf_d. intros H.
  apply (f_equal NilEmpty.int_of_string) in H.
  rewrite !NilEmpty.isi in H. injection H as H.
  rewrite <- (DecimalZ.of_to m), <- (DecimalZ.of_to n), H. reflexivity.
Qed.

Lemma Delete_inversion {Store : Type} (c : Ctx) (env : Env Store) (db : Store) :
  returned (run (Delete c env) db) = None ->
  exists id,
    ParseId c = Ok id /\
    fst (repository_Delete env db id) = None /\
    database (run (Delete c env) db) = snd (repository_Delete env db id) /\
    response (run (Delete c env) db) =
      Some (mkResponse 200 (Text ("Success delete sensor, id: " ++ Sprintf_d id))).
Proof.
  unfold_handler. simpl.
  destruct (ParseId c) as [id | e]; simpl; [| discriminate].
  destruct (db_Begin env); simpl; [discriminate |].
  destruct (repository_GetIdUserWhoOwnSensorById env db id); simpl; [| discriminate].
  destruct (Authentication c) as [user | e]; simpl; [| discriminate].
  destruct (forbidden a user); simpl; [discriminate |].
  destruct (repository_Delete env db id) as [[e |] db'] eqn:Hd; simpl; [discriminate |].
  intros _. exists id. rewrite Hd. repeat split.
Qed.

(** The confirmation of a successful [Delete] names the sensor that was
    deleted, in decimal: it is the text "Success delete sensor, id: "
    followed by the id, and two successful deletions, of whatever databases,
    that are confirmed by the same response were deletions of the same
    id. *)
Theorem Delete_confirmation_names_the_id :
  forall (Store1 Store2 : Type) (c1 c2 : Ctx)
         (env1 : Env Store1) (env2 : Env Store2) (db1 : Store1) (db2 : Store2),
    returned (run (Delete c1 env1) db1) = None ->
    returned (run (Delete c2 env2) db2) = None ->
    (exists id,
       ParseId c1 = Ok id /\
       response (run (Delete c1 env1) db1) =
         Some (mkResponse 200 (Text ("Success delete sensor, id: " ++ Sprintf_d id)))) /\
    (response (run (Delete c1 env1) db1) = response (run (Delete c2 env2) db2) ->
     ParseId c1 = ParseId c2).
Proof.
  intros Store1 Store2 c1 c2 env1 env2 db1 db2 H1 H2.
  destruct (Delete_inversion c1 env1 db1 H1) as (id1 & Hid1 & _ & _ & Hr1).
  destruct (Delete_inversion c2 env2 db2 H2) as (id2 & Hid2 & _ & _ & Hr2).
  split.
  - exists id1. split; assumption.
  - intros Heq. rewrite Hr1, Hr2 in Heq. simpl in Heq.
    injection Heq as Heq. apply Sprintf_d_injective in Heq.
    rewrite Hid1, Hid2, Heq. reflexivity.
Qed.

(** The admin deletes sensor 7. *)
Lemma Delete_confirmation_names_the_id_witness :
  exists id,
    ParseId (Mem.request Mem.root 7 "text/html") = Ok id /\
    response (run (Delete (Mem.request Mem.root 7 "text/html") Mem.env) Mem.db) =
      Some (mkResponse 200 (Text ("Success delete sensor, id: " ++ Sprintf_d id))).
Proof.
  apply (proj1 (Delete_confirmation_names_the_id Mem.Store Mem.Store
                  (Mem.request Mem.root 7 "text/html")
                  (Mem.request Mem.root 7 "text/html")
                  Mem.env Mem.env Mem.db Mem.db eq_refl eq_refl)).
Defined.

(** ** The forms *)

(** Both forms are the template "sensor_form" in the layout
    "layouts/main".  [CreateForm] binds a title and nothing else, calls
    nothing but [Render] and returns what [Render] returns.  [UpdateForm],
    when it returns nil, has bound the sensor the repository holds under
    the id of the URL, together with the mark "edit". *)
Theorem forms_render_sensor_form :
  forall (Store : Type) (c : Ctx) (env : Env Store) (db : Store),
    (map fst (trace (run (CreateForm c) db)) =
       [Render "sensor_form" [("title", BString "Create Sensor")] "layouts/main"] /\
     returned (run (CreateForm c) db) = RenderError c "sensor_form") /\
    (returned (run (UpdateForm c env) db) = None ->
     exists id sensor,
       ParseId c = Ok id /\
       repository_GetById env db id = Ok sensor /\
       response (run (UpdateForm c env) db) =
         Some (mkResponse 200
                 (HTML "sensor_form"
                    [("title", BString "Edit Sensor"); ("sensor", BSensor sensor);
                     ("edit", BBool true)]
                    "layouts/main"))).
Proof.
  intros Store c env db. split.
  - unfold run, CreateForm, c_Render, write, log.
    destruct (RenderError c "sensor_form"); split; reflexivity.
  - unfold_handler. simpl.
    destruct (ParseId c) as [id | e]; simpl; [| discriminate].
    destruct (db_Begin env); simpl; [discriminate |].
    destruct (repository_GetById env db id) as [sensor | e] eqn:Hs; simpl; [| discriminate].
    destruct (RenderError c "sensor_form"); simpl; [discriminate |].
    intros _. exists id, sensor. repeat split. exact Hs.
Qed.

(** The edit form of sensor 7. *)
Lemma forms_render_sensor_form_witness :
  exists id sensor,
    ParseId (Mem.request Mem.alice 7 "text/html") = Ok id /\
    repository_GetById Mem.env Mem.db id = Ok sensor /\
    response (run (UpdateForm (Mem.request Mem.alice 7 "text/html") Mem.env) Mem.db) =
      Some (mkResponse 200
              (HTML "sensor_form"
                 [("title", BString "Edit Sensor"); ("sensor", BSensor sensor);
                  ("edit", BBool true)]
                 "layouts/main")).
Proof.
  apply (proj2 (forms_render_sensor_form Mem.Store (Mem.request Mem.alice 7 "text/html")
                  Mem.env Mem.db)).
  reflexivity.
Defined.
